(** * Asana "Create Task" form: request construction and submission

    A shallow embedding of [onSubmit] of
    [extensions/asana/src/components/CreateTaskForm.tsx] and of the
    library functions it calls, with the properties of the submitted
    request and of the submission workflow. *)

From Stdlib Require Import ZArith Lia List Ascii String Bool.
From stdpp Require Import base strings gmap list.

Local Open Scope string_scope.
Local Open Scope Z_scope.

(** ** JavaScript strings *)

Module Js.

(** Characters that cannot be written inside a Rocq string literal. *)
Definition dquote : string := String "034"%char EmptyString.
Definition newline : string := String "010"%char EmptyString.

(** A string is truthy exactly when it is not empty. *)
Definition truthy (s : string) : bool :=
  match s with
  | EmptyString => false
  | String _ _ => true
  end.

(** [s.startsWith(p)] *)
Definition startsWith (s p : string) : bool := String.prefix p s.

(** [s.split(sep)] for a one-character separator: the pieces between
    the separators, in order; there is always at least one piece. *)
Fixpoint split (sep : ascii) (s : string) : list string :=
  match s with
  | EmptyString => [EmptyString]
  | String c rest =>
      if Ascii.eqb c sep then EmptyString :: split sep rest
      else match split sep rest with
           | piece :: pieces => String c piece :: pieces
           | [] => [String c EmptyString]
           end
  end.

(** [s.padStart(n, "0")] *)
Definition padStart0 (s : string) (n : nat) : string :=
  string_of_list_ascii (repeat "0"%char (n - String.length s)) +:+ s.

(** One decimal digit. *)
Definition digit (d : Z) : ascii := ascii_of_nat (48 + Z.to_nat d).

(** [n.toString()] for a non-negative integer [n], least significant
    digit first into the accumulator. *)
Fixpoint digits (fuel : nat) (n : Z) (acc : string) : string :=
  let acc' := String (digit (n mod 10)) acc in
  match fuel with
  | O => acc'
  | S fuel' => if n <? 10 then acc' else digits fuel' (n / 10) acc'
  end.

Definition toString (n : Z) : string :=
  digits (Z.to_nat (Z.log2 n)) n EmptyString.

(** [list.includes(x)] on strings. *)
Fixpoint includes (l : list string) (x : string) : bool :=
  match l with
  | [] => false
  | y :: rest => if String.eqb y x then true else includes rest x
  end.

(** [array.flat()] over elements that are arrays or undefined: an
    array is spliced in, undefined stays an element. *)
Fixpoint flat {A : Type} (l : list (option (list A))) : list (option A) :=
  match l with
  | [] => []
  | Some inner :: rest => map Some inner ++ flat rest
  | None :: rest => None :: flat rest
  end.

End Js.

(** ** JavaScript dates

    A [Date] holds a time value: milliseconds since the epoch, in UTC.
    The form's date picker yields valid dates, so the time value is a
    number. The calendar functions are those of ECMA-262 (Day,
    DayFromYear, YearFromTime, MonthFromTime, DateFromTime); the local
    getters read them at the local time [t + LocalTZA t]. *)

Module JsDate.

Record Date := mkDate { getTime : Z }.

Definition msPerDay : Z := 86400000.

Definition Day (t : Z) : Z := t / msPerDay.

Definition DaysInYear (y : Z) : Z :=
  if negb (y mod 4 =? 0) then 365
  else if negb (y mod 100 =? 0) then 366
  else if negb (y mod 400 =? 0) then 365
  else 366.

Definition DayFromYear (y : Z) : Z :=
  365 * (y - 1970) + (y - 1969) / 4 - (y - 1901) / 100 + (y - 1601) / 400.

(** The largest year whose first day is not after the day of [t]: an
    estimate from the mean year length, corrected by at most one. *)
Definition YearFromDay (day : Z) : Z :=
  let est := 1970 + (400 * day) / 146097 in
  if day <? DayFromYear est then est - 1
  else if DayFromYear (est + 1) <=? day then est + 1
  else est.

Definition YearFromTime (t : Z) : Z := YearFromDay (Day t).

Definition InLeapYear (t : Z) : Z :=
  if DaysInYear (YearFromTime t) =? 366 then 1 else 0.

Definition DayWithinYear (t : Z) : Z :=
  Day t - DayFromYear (YearFromTime t).

(** Month number, January being 0. *)
Definition MonthFromTime (t : Z) : Z :=
  let d := DayWithinYear t in
  let leap := InLeapYear t in
  if d <? 31 then 0
  else if d <? 59 + leap then 1
  else if d <? 90 + leap then 2
  else if d <? 120 + leap then 3
  else if d <? 151 + leap then 4
  else if d <? 181 + leap then 5
  else if d <? 212 + leap then 6
  else if d <? 243 + leap then 7
  else if d <? 273 + leap then 8
  else if d <? 304 + leap then 9
  else if d <? 334 + leap then 10
  else 11.

(** Day of the month, from 1. *)
Definition DateFromTime (t : Z) : Z :=
  let d := DayWithinYear t in
  let leap := InLeapYear t in
  match MonthFromTime t with
  | 0 => d + 1
  | 1 => d - 30
  | 2 => d - 58 - leap
  | 3 => d - 89 - leap
  | 4 => d - 119 - leap
  | 5 => d - 150 - leap
  | 6 => d - 180 - leap
  | 7 => d - 211 - leap
  | 8 => d - 242 - leap
  | 9 => d - 272 - leap
  | 10 => d - 303 - leap
  | _ => d - 333 - leap
  end.

(** date-fns [addLeadingZeros(number, targetLength)] *)
Definition addLeadingZeros (number : Z) (targetLength : nat) : string :=
  (if number <? 0 then "-" else "") +:+
  Js.padStart0 (Js.toString (Z.abs number)) targetLength.

Section Local.

(** The offset of local time from UTC, in milliseconds, at a UTC
    time: owned by the host's time zone. *)
Variable LocalTZA : Z -> Z.

Definition LocalTime (t : Z) : Z := t + LocalTZA t.

Definition getFullYear (d : Date) : Z := YearFromTime (LocalTime (getTime d)).
Definition getMonth (d : Date) : Z := MonthFromTime (LocalTime (getTime d)).
Definition getDate (d : Date) : Z := DateFromTime (LocalTime (getTime d)).

(** date-fns [format(date, "yyyy-MM-dd")]: the tokens [yyyy], [MM]
    and [dd] read the local year, month and day of the month. *)
Definition format_yyyy (d : Date) : string :=
  let signedYear := getFullYear d in
  let year := if 0 <? signedYear then signedYear else 1 - signedYear in
  addLeadingZeros year 4.
Definition format_MM (d : Date) : string := addLeadingZeros (getMonth d + 1) 2.
Definition format_dd (d : Date) : string := addLeadingZeros (getDate d) 2.

Definition format_yyyy_MM_dd (d : Date) : string :=
  format_yyyy d +:+ "-" +:+ format_MM d +:+ "-" +:+ format_dd d.

End Local.

(** *** Calendar dates, for stating what the getters return *)

Definition isLeap (y : Z) : bool := DaysInYear y =? 366.

(** Days of the year before month [m] (1 to 12). *)
Definition daysBeforeMonth (leap : bool) (m : Z) : Z :=
  let l := if leap then 1 else 0 in
  match m with
  | 1 => 0 | 2 => 31 | 3 => 59 + l | 4 => 90 + l | 5 => 120 + l
  | 6 => 151 + l | 7 => 181 + l | 8 => 212 + l | 9 => 243 + l
  | 10 => 273 + l | 11 => 304 + l | _ => 334 + l
  end.

Definition daysInMonth (leap : bool) (m : Z) : Z :=
  match m with
  | 2 => if leap then 29 else 28
  | 4 | 6 | 9 | 11 => 30
  | _ => 31
  end.

(** [y]-[m]-[d] names a day of the calendar. *)
Definition validDate (y m d : Z) : Prop :=
  1 <= m <= 12 /\ 1 <= d <= daysInMonth (isLeap y) m.

(** The day number (days since the epoch) of the calendar day. *)
Definition dayOfDate (y m d : Z) : Z :=
  DayFromYear y + daysBeforeMonth (isLeap y) m + (d - 1).

(** The calendar date written with four, two and two digits. *)
Definition isoDate (y m d : Z) : string :=
  String (Js.digit (y / 1000)) (String (Js.digit (y / 100 mod 10))
  (String (Js.digit (y / 10 mod 10)) (String (Js.digit (y mod 10))
  (String "-" (String (Js.digit (m / 10)) (String (Js.digit (m mod 10))
  (String "-" (String (Js.digit (d / 10)) (String (Js.digit (d mod 10))
  EmptyString))))))))).

End JsDate.

(** ** The remote service: [../api/tasks] *)

Module Api.

(** A value held by a form item or sent in a custom field. *)
Inductive FormValue :=
| VUndefined
| VNull
| VString (s : string)
| VStrings (l : list string)
| VDate (d : JsDate.Date).

(** The argument of [createTask]: [projects], [html_notes],
    [assignee] and [due_on] are keys that may be absent. *)
Record CreateTaskPayload := mkPayload {
  workspace : string;
  name : string;
  custom_fields : gmap string FormValue;
  projects : option (list string);
  html_notes : option string;
  assignee : option string;
  due_on : option string
}.

(** Modelled from the spec: the type of the created task is declared
    in [../api/tasks]; the form reads its identifier and its
    permalink URL, the other fields pass through. *)
Record Task := mkTask {
  gid : string;
  permalink_url : string
}.

(** The types of users, projects and custom fields are declared in
    [../api]; each record holds the fields that the component reads. *)
Module User.
Record t := mk { gid : string; name : string }.
End User.

Module EnumOption.
Record t := mk { gid : string; name : string; color : string }.
End EnumOption.

Module CustomField.
Record t := mk {
  gid : string;
  name : string;
  resource_subtype : string;
  enum_options : option (list EnumOption.t)
}.
End CustomField.

Module Setting.
Record t := mk { custom_field : CustomField.t }.
End Setting.

Module Project.
Record t := mk {
  gid : string;
  name : string;
  custom_field_settings : option (list Setting.t)
}.
End Project.

End Api.

(** ** The form's values: [../create-task] *)

Module CreateTask.

(** Modelled from the spec: [TaskFormValues] is declared in
    [../create-task]. The six items wired to the form hook, by the
    names [onSubmit] reads, and the remaining items of the form (the
    custom-field inputs, whose ids are [field-<gid>]) by id, in the
    order of the form. [projects] may be undefined, [due_date] may be
    null. *)
Record TaskFormValues := mkValues {
  workspace : string;
  projects : option (list string);
  name : string;
  description : string;
  assignee : string;
  due_date : option JsDate.Date;
  inputs : list (string * string)
}.

(** No two items of a form share an id. *)
Definition wf (values : TaskFormValues) : Prop :=
  NoDup (map fst (inputs values)).

End CreateTask.

(** ** The form component: [components/CreateTaskForm.tsx] *)

Module CreateTaskForm.

Import Api.
Import CreateTask.

(** *** Building the request (lines 30 to 58) *)

(** The fixed signature line. *)
Definition signatureLine : string :=
  "Created via <a href=" +:+ Js.dquote +:+
  "https://www.raycast.com/?ref=signatureAsana" +:+ Js.dquote +:+
  ">Raycast</a>".

Definition separator : string := Js.newline +:+ "--" +:+ Js.newline.

(** The local [htmlNotes], lines 32 to 40. *)
Definition htmlNotes (signature : bool) (values : TaskFormValues) : string :=
  let htmlNotes := "<body>" +:+ description values in
  let htmlNotes :=
    if signature then
      let htmlNotes :=
        if Js.truthy (description values) then htmlNotes +:+ separator
        else htmlNotes in
      htmlNotes +:+ signatureLine
    else htmlNotes in
  htmlNotes +:+ "</body>".

(** [Object.entries(values)] *)
Definition Object_entries (values : TaskFormValues) : list (string * FormValue) :=
  [ ("workspace", VString (CreateTask.workspace values));
    ("projects", match CreateTask.projects values with
                 | Some l => VStrings l
                 | None => VUndefined
                 end);
    ("name", VString (CreateTask.name values));
    ("description", VString (description values));
    ("assignee", VString (CreateTask.assignee values));
    ("due_date", match due_date values with
                 | Some d => VDate d
                 | None => VNull
                 end) ]
  ++ map (fun '(id, s) => (id, VString s)) (inputs values).

(** [value !== ""] *)
Definition notEmptyString (value : FormValue) : bool :=
  match value with
  | VString EmptyString => false
  | _ => true
  end.

(** The local [customFieldsEntries], lines 42 to 44. *)
Definition customFieldsEntries (values : TaskFormValues) : list (string * FormValue) :=
  List.filter
    (fun '(key, value) => Js.startsWith key "field-" && notEmptyString value)
    (Object_entries values).

(** [field[0].split("-")[1]], line 46; an index past the pieces is
    undefined and, as a property name, reads "undefined". *)
Definition fieldId (key : string) : string :=
  match Js.split "-" key !! 1%nat with
  | Some piece => piece
  | None => "undefined"
  end.

(** The local [customFields], lines 45 to 48: the entries folded from
    the left into an object, a later entry replacing an earlier one of
    the same id. *)
Definition customFields (values : TaskFormValues) : gmap string FormValue :=
  fold_left (fun acc field => <[fieldId (fst field) := snd field]> acc)
            (customFieldsEntries values) ∅.

(** The argument of [createTask], lines 50 to 58. [signature] is the
    preference, [LocalTZA] the host's time zone. *)
Definition payload (LocalTZA : Z -> Z) (signature : bool)
    (values : TaskFormValues) : CreateTaskPayload :=
  {| Api.workspace := CreateTask.workspace values;
     Api.name := CreateTask.name values;
     custom_fields := customFields values;
     Api.projects :=
       match CreateTask.projects values with
       | Some l => if (0 <? length l)%nat then Some l else None
       | None => None
       end;
     html_notes :=
       if Js.truthy (description values)
       then Some (htmlNotes signature values) else None;
     Api.assignee :=
       if Js.truthy (CreateTask.assignee values)
       then Some (CreateTask.assignee values) else None;
     due_on :=
       match due_date values with
       | Some d => Some (JsDate.format_yyyy_MM_dd LocalTZA d)
       | None => None
       end |}.

(** *** The custom-field inputs (lines 171 to 200)

    The id of the form input of the custom field [gid], lines 175 and
    196. *)
Definition inputId (gid : string) : string := "field-" +:+ gid.

(** *** The host: toast, navigation, clipboard and form *)

Inductive ToastStyle := Animated | Success | Failure.

(** What a toast action does when chosen: the closures of line 66 and
    of lines 72 to 76, with the task they capture. *)
Inductive Handler :=
| OpenTask (task : Task)
| CopyTaskUrl (task : Task).

Record ToastAction := mkAction {
  action_title : string;
  shortcut : list string * string;
  onAction : Handler
}.

Record Toast := mkToast {
  style : ToastStyle;
  title : string;
  message : option string;
  primaryAction : option ToastAction;
  secondaryAction : option ToastAction
}.

(** The argument of the form hook's [reset]: a value for some of the
    items wired to the hook. *)
Record ResetValues := mkReset {
  reset_workspace : option string;
  reset_projects : option (list string);
  reset_name : option string;
  reset_description : option string;
  reset_assignee : option string;
  reset_due_date : option (option JsDate.Date)
}.

(** The calls that leave the component, in order. *)
Inductive Event :=
| ToastShow
| CreateTaskCall (request : CreateTaskPayload)
| FormReset (given : ResetValues)
| Focus (id : string)
| NavigationPush (task : Task)
| ClipboardCopy (text : string).

(** What the form holds: the values of the form hook, where the key of
    a wired item may be absent (undefined), and the values of the
    custom-field inputs, which are not wired to the hook. *)
Record FormState := mkState {
  state_workspace : option string;
  state_projects : option (list string);
  state_name : option string;
  state_description : option string;
  state_assignee : option string;
  state_due_date : option (option JsDate.Date);
  state_inputs : list (string * string)
}.

(** The state of a form whose items hold [values]. *)
Definition held (values : TaskFormValues) : FormState :=
  {| state_workspace := Some (CreateTask.workspace values);
     state_projects := CreateTask.projects values;
     state_name := Some (CreateTask.name values);
     state_description := Some (description values);
     state_assignee := Some (CreateTask.assignee values);
     state_due_date := Some (due_date values);
     state_inputs := inputs values |}.

Record World := mkWorld {
  toast : option Toast;
  form : FormState;
  errors : list (string * string);
  trace : list Event
}.

Definition createTaskCalls (events : list Event) : list CreateTaskPayload :=
  omap (fun e => match e with CreateTaskCall r => Some r | _ => None end) events.

Definition formResets (events : list Event) : list ResetValues :=
  omap (fun e => match e with FormReset g => Some g | _ => None end) events.

(** The form before the user submits: the items hold [values]. *)
Definition opened (values : TaskFormValues) : World :=
  {| toast := None; form := held values; errors := []; trace := [] |}.

(** The hook's values after [setValues(given)]: the given object
    replaces them, so a wired item that is given no value has no key
    left; the custom-field inputs are not the hook's. *)
Definition replaceValues (given : ResetValues) (state : FormState) : FormState :=
  {| state_workspace := reset_workspace given;
     state_projects := reset_projects given;
     state_name := reset_name given;
     state_description := reset_description given;
     state_assignee := reset_assignee given;
     state_due_date := reset_due_date given;
     state_inputs := state_inputs state |}.

Section Submission.

(** What a rejected [createTask] throws, and [getErrorMessage] of
    [../helpers/errors]. *)
Context {Error : Type}.
Variable getErrorMessage : Error -> string.

(** The host's time zone and the [signature] preference. *)
Variable LocalTZA : Z -> Z.
Variable signature : bool.

(** The outcome of the network call for a request. *)
Variable remote : CreateTaskPayload -> Error + Task.

(** **** Asynchronous code that may throw *)

Inductive Completion (A : Type) :=
| Normal (a : A)
| Throw (e : Error).
Arguments Normal {A} a.
Arguments Throw {A} e.

Definition M (A : Type) : Type := World -> Completion A * World.

#[local] Instance M_ret : MRet M := fun A a w => (Normal a, w).
#[local] Instance M_bind : MBind M := fun A B f m w =>
  match m w with
  | (Normal a, w') => f a w'
  | (Throw e, w') => (Throw e, w')
  end.

Definition try_catch {A} (body : M A) (handler : Error -> M A) : M A :=
  fun w =>
    match body w with
    | (Normal a, w') => (Normal a, w')
    | (Throw e, w') => handler e w'
    end.

Definition modify (f : World -> World) : M unit := fun w => (Normal tt, f w).

Definition emit (e : Event) : M unit :=
  modify (fun w => {| toast := toast w; form := form w; errors := errors w;
                      trace := trace w ++ [e] |}).

Definition setToast (f : Toast -> Toast) : M unit :=
  modify (fun w => {| toast := f <$> toast w; form := form w;
                      errors := errors w; trace := trace w |}).

Definition setForm (f : FormState -> FormState) : M unit :=
  modify (fun w => {| toast := toast w; form := f (form w);
                      errors := errors w; trace := trace w |}).

(** **** The calls of [onSubmit] *)

Definition newToast (t : Toast) : M unit :=
  modify (fun w => {| toast := Some t; form := form w; errors := errors w;
                      trace := trace w |}).

Definition toast_show : M unit := emit ToastShow.

Definition set_style (s : ToastStyle) : M unit :=
  setToast (fun t => mkToast s (title t) (message t) (primaryAction t) (secondaryAction t)).
Definition set_title (s : string) : M unit :=
  setToast (fun t => mkToast (style t) s (message t) (primaryAction t) (secondaryAction t)).
Definition set_message (s : string) : M unit :=
  setToast (fun t => mkToast (style t) (title t) (Some s) (primaryAction t) (secondaryAction t)).
Definition set_primaryAction (a : ToastAction) : M unit :=
  setToast (fun t => mkToast (style t) (title t) (message t) (Some a) (secondaryAction t)).
Definition set_secondaryAction (a : ToastAction) : M unit :=
  setToast (fun t => mkToast (style t) (title t) (message t) (primaryAction t) (Some a)).

(** [await createTask(request)]: one network call; a failure is
    thrown. *)
Definition createTask (request : CreateTaskPayload) : M Task :=
  fun w =>
    let w' := {| toast := toast w; form := form w; errors := errors w;
                 trace := trace w ++ [CreateTaskCall request] |} in
    match remote request with
    | inr task => (Normal task, w')
    | inl error => (Throw error, w')
    end.

Definition setErrors (errs : list (string * string)) : M unit :=
  modify (fun w => {| toast := toast w; form := form w; errors := errs;
                      trace := trace w |}).

(** The hook's [reset(given)]: the validation errors are cleared and
    the hook's values are replaced by the given ones. *)
Definition reset (given : ResetValues) : M unit :=
  emit (FormReset given) ;;
  setErrors [] ;;
  setForm (replaceValues given).

Definition focus (id : string) : M unit := emit (Focus id).

(** **** [onSubmit], lines 25 to 87 *)

Definition onSubmit (values : TaskFormValues) : M unit :=
  newToast (mkToast Animated "Creating task" None None None) ;;
  toast_show ;;
  try_catch
    (task ← createTask (payload LocalTZA signature values);
     set_style Success ;;
     set_title "Created task" ;;
     set_primaryAction
       (mkAction "Open Task" (["cmd"; "shift"], "o") (OpenTask task)) ;;
     set_secondaryAction
       (mkAction "Copy Task URL" (["cmd"; "shift"], "c") (CopyTaskUrl task)) ;;
     reset (mkReset None None (Some "") (Some "") None (Some None)) ;;
     focus "name")
    (fun error =>
       set_style Failure ;;
       set_title "Failed to create task" ;;
       set_message (getErrorMessage error)).

(** Choosing a toast action runs its closure. *)
Definition runHandler (h : Handler) : M unit :=
  match h with
  | OpenTask task => emit (NavigationPush task)
  | CopyTaskUrl task =>
      emit (ClipboardCopy (permalink_url task)) ;;
      set_title "Copied to clipboard" ;;
      set_message (permalink_url task)
  end.

(** **** The form hook: validation (lines 88 to 91), then [onSubmit] *)

(** [FormValidation.Required] on a text item. *)
Definition required (id value : string) : list (string * string) :=
  if Js.truthy value then [] else [(id, "The item is required")].

Definition validation (values : TaskFormValues) : list (string * string) :=
  required "workspace" (CreateTask.workspace values) ++
  required "name" (CreateTask.name values).

(** [handleSubmit]: [onSubmit] runs only when no rule fails; otherwise
    the first item that fails is focused and every failure is
    recorded. *)
Definition handleSubmit (values : TaskFormValues) : M unit :=
  match validation values with
  | [] => onSubmit values
  | ((id, _) :: _) as errs => focus id ;; setErrors errs
  end.

(** The user submits the form holding [values]. *)
Definition submit (values : TaskFormValues) : Completion unit * World :=
  handleSubmit values (opened values).

End Submission.

Arguments Normal {Error A} a.
Arguments Throw {Error A} e.

(** *** The component around [onSubmit] *)

(** The props, lines 16 to 21. *)
Record Props := mkProps {
  draftValues : option TaskFormValues;
  props_assignee : option string;
  props_workspace : option string;
  fromEmptyView : option bool
}.

(** The values a form starts with: each of the six wired items may be
    undefined, [due_date] may also be null. *)
Record InitialValues := mkInitial {
  initial_workspace : option string;
  initial_projects : option (list string);
  initial_name : option string;
  initial_description : option string;
  initial_assignee : option string;
  initial_due_date : option (option JsDate.Date)
}.

(** [a || b] where [a] is a string or undefined. *)
Definition or_else (a b : option string) : option string :=
  match a with
  | Some s => if Js.truthy s then Some s else b
  | None => b
  end.

(** [initialValues], lines 92 to 99. *)
Definition initialValues (props : Props) : InitialValues :=
  {| initial_workspace :=
       or_else (CreateTask.workspace <$> draftValues props) (props_workspace props);
     initial_projects := draftValues props ≫= CreateTask.projects;
     initial_name := CreateTask.name <$> draftValues props;
     initial_description := description <$> draftValues props;
     initial_assignee :=
       or_else (CreateTask.assignee <$> draftValues props) (props_assignee props);
     initial_due_date := due_date <$> draftValues props |}.

(** [enableDrafts], line 127: [!props.fromEmptyView]. *)
Definition enableDrafts (props : Props) : bool :=
  match fromEmptyView props with
  | Some true => false
  | _ => true
  end.

(** [selectedProjects], lines 108 to 110. *)
Definition selectedProjects (allProjects : option (list Project.t))
    (values : TaskFormValues) : option (list Project.t) :=
  List.filter
    (fun project =>
       match CreateTask.projects values with
       | Some chosen => Js.includes chosen (Project.gid project)
       | None => false
       end) <$> allProjects.

(** The callback of the component's [customFields] memo, lines 108 to
    115: what the memo computes, at a render where it computes, from the
    [allProjects] and the [values] of that render. The memo itself is
    [customFieldsMemo] below. *)
Definition availableCustomFields (allProjects : option (list Project.t))
    (values : TaskFormValues) : option (list (option CustomField.t)) :=
  (fun selected =>
     Js.flat
       (map (fun project =>
               map Setting.custom_field <$> Project.custom_field_settings project)
          (List.filter
             (fun project =>
                match Project.custom_field_settings project with
                | Some settings => (0 <? length settings)%nat
                | None => false
                end)
             selected)))
  <$> selectedProjects allProjects values.

(** [hasCustomFields], line 118, at a render where the memo holds what
    it computes from [allProjects] and [values]. *)
Definition hasCustomFields (allProjects : option (list Project.t))
    (values : TaskFormValues) : bool :=
  match availableCustomFields allProjects values with
  | Some fields => (0 <? length fields)%nat
  | None => false
  end.

(** The icons of the items, by the expression that gives them. *)
Inductive Icon :=
| IconPerson
| AvatarIcon (name : string)
| CircleTinted (asanaColor : string).

Record Item := mkItem {
  item_key : option string;
  item_title : string;
  item_value : string;
  item_icon : option Icon
}.

(** The inputs that the component renders for custom fields. *)
Inductive FormItem :=
| Dropdown (id key title : string) (items : list Item)
| TextField (id key title placeholder : string).

Definition item_id (item : FormItem) : string :=
  match item with
  | Dropdown id _ _ _ => id
  | TextField id _ _ _ => id
  end.

(** The en dash that titles the empty choice of a dropdown, line 176. *)
Definition enDash : string :=
  String "226"%char (String "128"%char (String "147"%char EmptyString)).

(** The input of one custom field, lines 173 to 198: a dropdown for an
    enum, a text field for a text or a number, nothing otherwise. *)
Definition renderCustomField (field : CustomField.t) : option FormItem :=
  if String.eqb (CustomField.resource_subtype field) "enum" then
    Some (Dropdown (inputId (CustomField.gid field)) (CustomField.gid field)
            (CustomField.name field)
            (mkItem None enDash "" None ::
             match CustomField.enum_options field with
             | Some options =>
                 map (fun option =>
                        mkItem (Some (EnumOption.gid option)) (EnumOption.name option)
                          (EnumOption.gid option)
                          (Some (CircleTinted (EnumOption.color option))))
                     options
             | None => []
             end))
  else if String.eqb (CustomField.resource_subtype field) "text"
          || String.eqb (CustomField.resource_subtype field) "number" then
    Some (TextField (inputId (CustomField.gid field)) (CustomField.gid field)
            (CustomField.name field) (CustomField.name field))
  else None.

(** The custom-field part of the form, lines 171 to 200: null without
    custom fields; reading a field that is undefined throws.
    [customFieldItems] is the part at a render where the memo holds what
    it computes from [allProjects] and [values]; [customFieldPart] below
    is the part for any value of the memo. *)
Inductive Rendered :=
| RenderedNull
| RenderedItems (items : list (option FormItem))
| RenderThrows.

Fixpoint renderEach (fields : list (option CustomField.t)) : option (list (option FormItem)) :=
  match fields with
  | [] => Some []
  | Some field :: rest => cons (renderCustomField field) <$> renderEach rest
  | None :: _ => None
  end.

Definition customFieldItems (allProjects : option (list Project.t))
    (values : TaskFormValues) : Rendered :=
  if hasCustomFields allProjects values then
    match availableCustomFields allProjects values with
    | Some fields =>
        match renderEach fields with
        | Some items => RenderedItems items
        | None => RenderThrows
        end
    | None => RenderThrows
    end
  else RenderedNull.

(** The choices of the assignee dropdown, lines 155 to 166. *)
Definition assigneeItems (users : option (list User.t)) (me : option User.t) : list Item :=
  mkItem None "Unassigned" "" (Some IconPerson) ::
  match users with
  | Some users =>
      map (fun user =>
             mkItem (Some (User.gid user))
               (if match me with
                   | Some me => String.eqb (User.gid user) (User.gid me)
                   | None => false
                   end
                then User.name user +:+ " (me)" else User.name user)
               (User.gid user)
               (Some (AvatarIcon (User.name user))))
          users
  | None => []
  end.

(** The ids of the six items wired to the form hook, lines 129 to
    169. *)
Definition wiredIds : list string :=
  ["workspace"; "projects"; "name"; "description"; "assignee"; "due_date"].

(** *** The memo, lines 107 and 116

    [useMemo(callback, [values.projects])] keeps, between renders, the
    value it computed and the [values.projects] it computed it from. *)
Record MemoCell := mkCell {
  cell_projects : option (list string);
  cell_value : option (list (option CustomField.t))
}.

(** [Object.is] on the stored and the current [values.projects]:
    undefined is undefined; two arrays are the same when they are the
    same object, which [sameObject] tells. *)
Definition sameDependency (stored current : option (list string))
    (sameObject : bool) : bool :=
  match stored, current with
  | None, None => true
  | Some _, Some _ => sameObject
  | _, _ => false
  end.

(** The memo at a render: computed at the first render and when
    [values.projects] is not what it was; kept otherwise, whatever
    [allProjects] has become. *)
Definition customFieldsMemo (cell : option MemoCell) (sameObject : bool)
    (allProjects : option (list Project.t)) (values : TaskFormValues) : MemoCell :=
  match cell with
  | Some kept =>
      if sameDependency (cell_projects kept) (CreateTask.projects values) sameObject
      then kept
      else mkCell (CreateTask.projects values) (availableCustomFields allProjects values)
  | None => mkCell (CreateTask.projects values) (availableCustomFields allProjects values)
  end.

(** [hasCustomFields], line 118, of the value that the memo holds. *)
Definition hasCustomFieldsOf (customFields : option (list (option CustomField.t))) : bool :=
  match customFields with
  | Some fields => (0 <? length fields)%nat
  | None => false
  end.

(** The custom-field part of the form, lines 171 to 200, of the value
    that the memo holds. *)
Definition customFieldPart (customFields : option (list (option CustomField.t))) : Rendered :=
  if hasCustomFieldsOf customFields then
    match customFields with
    | Some fields =>
        match renderEach fields with
        | Some items => RenderedItems items
        | None => RenderThrows
        end
    | None => RenderThrows
    end
  else RenderedNull.

(** One render of the component: whether [values.projects] is the
    object it was when the memo last computed, the projects loaded so
    far, and the hook's values ([values.projects] is all that the memo
    reads). *)
Record Render := mkRender {
  render_sameObject : bool;
  render_allProjects : option (list Project.t);
  render_values : TaskFormValues
}.

(** The memo kept after the renders of a history, none before the first
    render. *)
Definition memoAfter (history : list Render) : option MemoCell :=
  fold_left
    (fun cell render =>
       Some (customFieldsMemo cell (render_sameObject render)
               (render_allProjects render) (render_values render)))
    history None.

(** The custom-field part at a render, and the memo kept for the
    next. *)
Definition renderCustomFields (cell : option MemoCell) (sameObject : bool)
    (allProjects : option (list Project.t)) (values : TaskFormValues)
    : Rendered * MemoCell :=
  let memo := customFieldsMemo cell sameObject allProjects values in
  (customFieldPart (cell_value memo), memo).

(** The custom-field part at the render [now] that follows the renders
    of [history]. *)
Definition customFieldPartAt (history : list Render) (now : Render) : Rendered :=
  fst (renderCustomFields (memoAfter history) (render_sameObject now)
         (render_allProjects now) (render_values now)).


End CreateTaskForm.

(** * Definitions for the statements *)

Import Api CreateTask CreateTaskForm JsDate.

(** The description between the body tags, followed by the separator
    and the signature line when the signature is asked for. *)
Definition wrappedNotes (signature : bool) (text : string) : string :=
  "<body>" +:+ text +:+
  (if signature then separator +:+ signatureLine else "") +:+ "</body>".

(** The part of a string before its first [sep] (all of it when there
    is none), and the part after it. *)
Fixpoint beforeSep (sep : ascii) (s : string) : string :=
  match s with
  | EmptyString => EmptyString
  | String c rest => if Ascii.eqb c sep then EmptyString else String c (beforeSep sep rest)
  end.

Fixpoint afterSep (sep : ascii) (s : string) : option string :=
  match s with
  | EmptyString => None
  | String c rest => if Ascii.eqb c sep then Some rest else afterSep sep rest
  end.

Definition hasDash (s : string) : Prop := is_Some (afterSep "-" s).

(** The substring strictly between the first and the second dash of a
    key (up to the end when there is no second dash). *)
Definition betweenDashes (key : string) : option string :=
  beforeSep "-" <$> afterSep "-" key.

(** The value of the last entry of [entries] whose field id is [k]. *)
Fixpoint lastFor (k : string) (entries : list (string * FormValue)) : option FormValue :=
  match entries with
  | [] => None
  | (key, value) :: rest =>
      match lastFor k rest with
      | Some v => Some v
      | None => if decide (fieldId key = k) then Some value else None
      end
  end.


(** The custom fields that a value of the memo holds. *)
Definition definedFields (customFields : option (list (option CustomField.t)))
    : list CustomField.t :=
  omap id (default [] customFields).

(** The memo at the render [now] that follows the renders of
    [history]. *)
Definition memoAt (history : list Render) (now : Render) : MemoCell :=
  customFieldsMemo (memoAfter history) (render_sameObject now)
    (render_allProjects now) (render_values now).

(** The values that [onSubmit] gives to [reset], line 79. *)
Definition resetGiven : ResetValues :=
  mkReset None None (Some "") (Some "") None (Some None).

Definition successToast (task : Task) : Toast :=
  mkToast Success "Created task" None
    (Some (mkAction "Open Task" (["cmd"; "shift"], "o") (OpenTask task)))
    (Some (mkAction "Copy Task URL" (["cmd"; "shift"], "c") (CopyTaskUrl task))).

Definition failureToast (text : string) : Toast :=
  mkToast Failure "Failed to create task" (Some text) None None.

(** A draft with a workspace, a project, a name, a description and a
    custom field. *)
Definition sampleDraft : TaskFormValues :=
  mkValues "W1" (Some ["P1"]) "Ship report" "Draft v1" "U1"
    (Some (mkDate 1714521600000)) [(inputId "8", "High")].

Definition sampleTask : Task := mkTask "T1" "https://app.asana.com/0/0/T1".

(** A service that accepts every request, and one that rejects every
    request. *)
Definition accepting (request : CreateTaskPayload) : string + Task := inr sampleTask.
Definition rejecting (request : CreateTaskPayload) : string + Task :=
  inl "Invalid custom field".

(** The form values with other inputs. *)
Definition withInputs (values : TaskFormValues) (l : list (string * string)) : TaskFormValues :=
  mkValues (CreateTask.workspace values) (CreateTask.projects values)
    (CreateTask.name values) (description values) (CreateTask.assignee values)
    (due_date values) l.

(** The settings of a project, none when undefined. *)
Definition settingsOf (project : Project.t) : list Setting.t :=
  default [] (Project.custom_field_settings project).

(** The project is among the chosen ones. *)
Definition isChosen (values : TaskFormValues) (project : Project.t) : bool :=
  match CreateTask.projects values with
  | Some chosen => Js.includes chosen (Project.gid project)
  | None => false
  end.

(** The custom fields of the chosen projects, project by project. *)
Definition fieldsOfChosen (projects : list Project.t) (values : TaskFormValues)
    : list CustomField.t :=
  flat_map (fun project => map Setting.custom_field (settingsOf project))
    (List.filter (isChosen values) projects).

(** The fields that the form offers, none while the projects are not
    loaded. *)
Definition offeredFields (allProjects : option (list Project.t))
    (values : TaskFormValues) : list CustomField.t :=
  match allProjects with
  | Some projects => fieldsOfChosen projects values
  | None => []
  end.

(** The custom field has an input: it is an enum, a text or a number. *)
Definition hasInput (field : CustomField.t) : bool :=
  String.eqb (CustomField.resource_subtype field) "enum"
  || String.eqb (CustomField.resource_subtype field) "text"
  || String.eqb (CustomField.resource_subtype field) "number".

(** The ids of the rendered inputs, in order. *)
Definition renderedIds (rendered : Rendered) : list string :=
  match rendered with
  | RenderedItems items => omap (fmap item_id) items
  | _ => []
  end.

(** One project with an enum and a text custom field. *)
Definition sampleProjects : option (list Project.t) :=
  Some [Project.mk "P1" "Launch"
          (Some [Setting.mk (CustomField.mk "11" "Priority" "enum"
                               (Some [EnumOption.mk "111" "High" "red"]));
                 Setting.mk (CustomField.mk "12" "Notes" "text" None)])].

Definition sampleInputs : TaskFormValues :=
  mkValues "W1" (Some ["P1"]) "Ship report" "" "" None
    [(inputId "11", "111"); (inputId "12", "")].

(** The form values with another assignee. *)
Definition withAssignee (values : TaskFormValues) (chosen : string) : TaskFormValues :=
  mkValues (CreateTask.workspace values) (CreateTask.projects values)
    (CreateTask.name values) (description values) chosen
    (due_date values) (inputs values).

(** * Properties *)

(** ** Strings *)

Lemma append_cons (a : ascii) (s t : string) :
  String a s +:+ t = String a (s +:+ t).
Proof. reflexivity. Qed.

Lemma append_assoc (s t u : string) : (s +:+ t) +:+ u = s +:+ t +:+ u.
Proof.
  induction s as [|a s IH]; [reflexivity|].
  rewrite !append_cons. by f_equal.
Qed.

Lemma truthy_true (s : string) : Js.truthy s = true <-> s <> "".
Proof. destruct s; simpl; split; congruence. Qed.

(** ** The notes of the request *)

Lemma htmlNotes_described (signature : bool) (values : TaskFormValues) :
  description values <> "" ->
  htmlNotes signature values = wrappedNotes signature (description values).
Proof.
  intros Hne. apply truthy_true in Hne.
  unfold htmlNotes, wrappedNotes. rewrite Hne.
  destruct signature; by rewrite !append_assoc.
Qed.

(** C1: the request has [html_notes] exactly when the description is
    not empty; it is then the description between the body tags, with
    the separator and the signature line appended exactly when the
    signature preference is on; with an empty description there is no
    [html_notes], whatever the preference. *)
Theorem html_notes_of_description (LocalTZA : Z -> Z) (signature : bool)
    (values : TaskFormValues) :
  (is_Some (html_notes (payload LocalTZA signature values))
     <-> description values <> "") /\
  html_notes (payload LocalTZA signature values) =
    (if decide (description values = "") then None
     else Some (wrappedNotes signature (description values))).
Proof.
  cbn [payload html_notes].
  destruct (decide (description values = "")) as [He|Hne].
  - rewrite He. cbn. split; [|reflexivity].
    split; [intros [? [=]] | congruence].
  - pose proof Hne as Ht. apply truthy_true in Ht. rewrite Ht.
    rewrite (htmlNotes_described _ _ Hne). split; [|reflexivity].
    split; [done | eauto].
Qed.

(** The example of the specification: description "Draft v1" with the
    signature on. *)
Example html_notes_draft_v1 :
  html_notes (payload (fun _ => 0) true
    (mkValues "W1" None "Ship report" "Draft v1" "" None [])) =
  Some ("<body>Draft v1" +:+ Js.newline +:+ "--" +:+ Js.newline +:+
        signatureLine +:+ "</body>").
Proof. reflexivity. Qed.

(** ** Workspace, name, projects and assignee *)

(** C5: the request has [projects] exactly when the draft's projects
    are present and not empty, and they are then the draft's own. *)
Theorem projects_iff_nonempty (LocalTZA : Z -> Z) (signature : bool)
    (values : TaskFormValues) :
  (is_Some (Api.projects (payload LocalTZA signature values))
     <-> exists l, CreateTask.projects values = Some l /\ l <> []) /\
  (forall l, Api.projects (payload LocalTZA signature values) = Some l ->
             CreateTask.projects values = Some l).
Proof.
  cbn [payload Api.projects].
  destruct (CreateTask.projects values) as [[|p l]|]; cbn; split.
  - split; [intros [? [=]] | intros (l & [= <-] & Hl); congruence].
  - intros ? [=].
  - split; [eauto | intros _; eauto].
  - intros ? [= <-]. reflexivity.
  - split; [intros [? [=]] | intros (l & [=] & _)].
  - intros ? [=].
Qed.

(** C10: the empty assignee, the form's "Unassigned" choice, is not
    sent: the request then has no [assignee] key. *)
Theorem unassigned_is_omitted (LocalTZA : Z -> Z) (signature : bool)
    (values : TaskFormValues) :
  CreateTask.assignee values = "" ->
  Api.assignee (payload LocalTZA signature values) = None.
Proof. intros He. cbn [payload Api.assignee]. by rewrite He. Qed.

Lemma unassigned_is_omitted_witness :
  Api.assignee (payload (fun _ => 0) true
    (mkValues "W1" (Some ["P1"]) "Ship report" "Draft v1" "" None [])) = None.
Proof.
  apply (unassigned_is_omitted (fun _ => 0) true
           (mkValues "W1" (Some ["P1"]) "Ship report" "Draft v1" "" None [])).
  reflexivity.
Defined.

(** ** Custom fields *)

Lemma split_pieces (sep : ascii) (s : string) :
  Js.split sep s =
  beforeSep sep s :: match afterSep sep s with
                     | Some rest => Js.split sep rest
                     | None => []
                     end.
Proof.
  induction s as [|c s IH]; [reflexivity|].
  cbn [Js.split beforeSep afterSep].
  destruct (Ascii.eqb c sep); [reflexivity|].
  rewrite IH. reflexivity.
Qed.

Lemma fieldId_pieces (key : string) :
  fieldId key = default "undefined" (betweenDashes key).
Proof.
  unfold fieldId, betweenDashes. rewrite split_pieces.
  destruct (afterSep "-" key) as [rest|]; [|reflexivity].
  rewrite split_pieces. reflexivity.
Qed.

Lemma fieldId_inputId (gid : string) : fieldId (inputId gid) = beforeSep "-" gid.
Proof. rewrite fieldId_pieces. reflexivity. Qed.

Lemma before_after_sep (sep : ascii) (s rest : string) :
  afterSep sep s = Some rest ->
  s = beforeSep sep s +:+ String sep rest.
Proof.
  induction s as [|c s IH]; [discriminate|].
  cbn [afterSep beforeSep]. destruct (Ascii.eqb_spec c sep) as [->|Hne].
  - intros [= ->]. reflexivity.
  - intros H. rewrite append_cons. f_equal. by apply IH.
Qed.

Lemma beforeSep_no_sep (sep : ascii) (s : string) :
  afterSep sep s = None -> beforeSep sep s = s.
Proof.
  induction s as [|c s IH]; [reflexivity|].
  cbn [afterSep beforeSep]. destruct (Ascii.eqb c sep); [discriminate|].
  intros H. f_equal. by apply IH.
Qed.

Lemma beforeSep_has_no_sep (sep : ascii) (s : string) :
  afterSep sep (beforeSep sep s) = None.
Proof.
  induction s as [|c s IH]; [reflexivity|].
  cbn [beforeSep]. destruct (Ascii.eqb c sep) eqn:E; [reflexivity|].
  cbn [afterSep]. by rewrite E.
Qed.

Lemma startsWith_spec (s p : string) :
  Js.startsWith s p = true <-> exists rest, s = p +:+ rest.
Proof.
  unfold Js.startsWith. revert s.
  induction p as [|a p IH]; intros s.
  - destruct s; cbn; split; eauto.
  - destruct s as [|b s]; cbn [String.prefix].
    + split; [discriminate | intros [rest [=]]].
    + destruct (ascii_dec a b) as [->|Hne].
      * rewrite IH. split; intros [rest Hr]; exists rest.
        -- rewrite append_cons. by f_equal.
        -- rewrite append_cons in Hr. by injection Hr.
      * split; [discriminate|]. intros [rest Hr].
        rewrite append_cons in Hr. congruence.
Qed.

Lemma startsWith_field (key : string) :
  Js.startsWith key "field-" = true <-> exists gid, key = inputId gid.
Proof. apply startsWith_spec. Qed.

(** The entries kept for the request are the non-empty custom-field
    inputs, in the order of the form. *)
Lemma customFieldsEntries_inputs (values : TaskFormValues) :
  customFieldsEntries values =
  List.filter (fun '(key, value) => Js.startsWith key "field-" && notEmptyString value)
    (map (fun '(id, s) => (id, VString s)) (inputs values)).
Proof.
  unfold customFieldsEntries, Object_entries.
  rewrite List.filter_app. reflexivity.
Qed.

Lemma elem_of_customFieldsEntries (values : TaskFormValues) key value :
  In (key, value) (customFieldsEntries values) <->
  exists gid s, key = inputId gid /\ value = VString s /\ s <> "" /\
                In (inputId gid, s) (inputs values).
Proof.
  rewrite customFieldsEntries_inputs, List.filter_In, List.in_map_iff.
  split.
  - intros [[[id s] [[= <- <-] Hin]] Hf].
    apply andb_prop in Hf as [Hp Hv].
    apply startsWith_field in Hp as [gid ->].
    exists gid, s. repeat split; try done.
    intros ->. discriminate.
  - intros (gid & s & -> & -> & Hs & Hin). split.
    + exists (inputId gid, s). done.
    + apply andb_true_intro. split.
      * apply startsWith_field. eauto.
      * destruct s; [done | reflexivity].
Qed.

Lemma lookup_fold_insert (entries : list (string * FormValue))
    (m : gmap string FormValue) (k : string) :
  fold_left (fun acc field => <[fieldId (fst field) := snd field]> acc) entries m !! k =
  match lastFor k entries with
  | Some v => Some v
  | None => m !! k
  end.
Proof.
  revert m. induction entries as [|[key value] entries IH]; intros m; [reflexivity|].
  cbn [fold_left lastFor fst snd]. rewrite IH.
  destruct (lastFor k entries); [reflexivity|].
  rewrite lookup_insert. destruct (decide (fieldId key = k)); reflexivity.
Qed.

Lemma customFields_lookup (values : TaskFormValues) (k : string) :
  customFields values !! k = lastFor k (customFieldsEntries values).
Proof.
  unfold customFields. rewrite lookup_fold_insert.
  destruct (lastFor k _); [reflexivity | apply lookup_empty].
Qed.

Lemma lastFor_Some k entries v :
  lastFor k entries = Some v -> exists key, In (key, v) entries /\ fieldId key = k.
Proof.
  induction entries as [|[key value] entries IH]; [discriminate|].
  cbn [lastFor]. destruct (lastFor k entries) as [v'|].
  - intros [= ->]. destruct IH as (key' & Hin & Hk); [done|].
    exists key'. split; [by right | done].
  - destruct (decide (fieldId key = k)); [|discriminate].
    intros [= ->]. exists key. split; [by left | done].
Qed.

Lemma lastFor_None k entries :
  lastFor k entries = None -> forall key v, In (key, v) entries -> fieldId key <> k.
Proof.
  induction entries as [|[key value] entries IH]; [intros _ ? ? []|].
  cbn [lastFor]. destruct (lastFor k entries) as [v'|]; [discriminate|].
  destruct (decide (fieldId key = k)); [discriminate|].
  intros _ key' v' [[= <- <-]|Hin]; [done | by eapply IH].
Qed.

Lemma NoDup_fst_unique {A B : Type} (l : list (A * B)) (a : A) (b b' : B) :
  NoDup (map fst l) -> In (a, b) l -> In (a, b') l -> b = b'.
Proof.
  induction l as [|[x y] l IH]; [intros _ []|].
  cbn [map fst]. intros Hnd. apply NoDup_cons in Hnd as [Hx Hnd].
  assert (Hfst : forall c, In (x, c) l -> x ∈ map fst l).
  { intros c Hc. apply list_elem_of_In, in_map_iff. by exists (x, c). }
  intros [E1|H1] [E2|H2]; simplify_eq.
  - reflexivity.
  - destruct Hx. eauto.
  - destruct Hx. eauto.
  - by apply IH.
Qed.

Lemma is_Some_customFields (values : TaskFormValues) (k : string) :
  is_Some (customFields values !! k) <->
  exists gid s, In (inputId gid, s) (inputs values) /\ s <> "" /\ k = beforeSep "-" gid.
Proof.
  rewrite customFields_lookup. split.
  - intros [v Hv]. apply lastFor_Some in Hv as (key & Hin & Hk).
    apply elem_of_customFieldsEntries in Hin as (gid & s & -> & -> & Hs & Hin).
    exists gid, s. rewrite fieldId_inputId in Hk. done.
  - intros (gid & s & Hin & Hs & ->).
    destruct (lastFor _ _) eqn:E; [eauto|].
    exfalso. eapply lastFor_None; [exact E | | apply fieldId_inputId].
    apply elem_of_customFieldsEntries. exists gid, s. done.
Qed.

(** C9: the key sent for the form input [field-<gid>] is the part of
    the input's id strictly between its first and its second dash, that
    is the part of [gid] before its first dash; a [gid] with a dash in
    it is therefore sent cut at that dash, not in full, and the keys of
    the request's [custom_fields] are these cut identifiers. *)
Theorem custom_field_key_cut_at_dash (LocalTZA : Z -> Z) (signature : bool)
    (values : TaskFormValues) (gid : string) :
  betweenDashes (inputId gid) = Some (fieldId (inputId gid)) /\
  fieldId (inputId gid) = beforeSep "-" gid /\
  (forall rest, afterSep "-" gid = Some rest ->
     gid = fieldId (inputId gid) +:+ "-" +:+ rest /\ fieldId (inputId gid) <> gid) /\
  (forall k, is_Some (custom_fields (payload LocalTZA signature values) !! k) <->
     exists g s, In (inputId g, s) (inputs values) /\ s <> "" /\ k = fieldId (inputId g)).
Proof.
  split; [|split; [|split]].
  - rewrite fieldId_inputId. reflexivity.
  - apply fieldId_inputId.
  - intros rest Hrest. rewrite fieldId_inputId. split.
    + by apply before_after_sep.
    + intros Heq. pose proof (beforeSep_has_no_sep "-" gid) as Hnone.
      rewrite Heq in Hnone. congruence.
  - intros k. cbn [payload custom_fields]. rewrite is_Some_customFields.
    split; intros (g & s & Hin & Hs & ->); exists g, s;
      by rewrite ?fieldId_inputId in *.
Qed.

(** A custom field whose identifier holds a dash: the request is keyed
    by the part before the dash. *)
Example custom_field_key_cut_example :
  fieldId (inputId "12-34") = "12" /\ fieldId (inputId "1200") = "1200".
Proof. split; reflexivity. Qed.

(** When no two inputs share an id and no custom-field identifier
    holds a dash, the request's [custom_fields] are exactly the
    non-empty custom-field inputs, each under its bare identifier. *)
Lemma custom_fields_exact_without_dash (values : TaskFormValues) :
  wf values ->
  (forall gid s, In (inputId gid, s) (inputs values) -> ~ hasDash gid) ->
  forall gid value,
    customFields values !! gid = Some value <->
    exists s, value = VString s /\ s <> "" /\ In (inputId gid, s) (inputs values).
Proof.
  intros Hwf Hdash gid value. rewrite customFields_lookup.
  assert (Hbare : forall g s, In (inputId g, s) (inputs values) -> fieldId (inputId g) = g).
  { intros g s Hin. rewrite fieldId_inputId. apply beforeSep_no_sep.
    specialize (Hdash g s Hin). unfold hasDash in Hdash.
    destruct (afterSep "-" g); [destruct Hdash; eauto | reflexivity]. }
  split.
  - intros Hv. apply lastFor_Some in Hv as (key & Hin & Hk).
    apply elem_of_customFieldsEntries in Hin as (g & s & -> & -> & Hs & Hin).
    rewrite (Hbare g s Hin) in Hk. subst g. eauto.
  - intros (s & -> & Hs & Hin).
    destruct (lastFor gid _) as [v|] eqn:E.
    + apply lastFor_Some in E as (key & Hin' & Hk).
      apply elem_of_customFieldsEntries in Hin' as (g & s' & -> & -> & Hs' & Hin').
      rewrite (Hbare g s' Hin') in Hk. subst g.
      by rewrite (NoDup_fst_unique _ _ _ _ Hwf Hin Hin').
    + exfalso. eapply lastFor_None; [exact E | | exact (Hbare gid s Hin)].
      apply elem_of_customFieldsEntries. exists gid, s. done.
Qed.

(** C2, at the custom field "12-34" with the value "High": the request
    is keyed by "12", and has no entry under the bare identifier
    "12-34". *)
Theorem custom_fields_identifier_with_dash :
  custom_fields (payload (fun _ => 0) false
    (mkValues "W1" (Some ["P1"]) "Ship report" "" "" None
       [(inputId "12-34", "High")])) = {[ "12" := VString "High" ]} /\
  custom_fields (payload (fun _ => 0) false
    (mkValues "W1" (Some ["P1"]) "Ship report" "" "" None
       [(inputId "12-34", "High")])) !! "12-34" = None.
Proof. split; vm_compute; reflexivity. Qed.

(** Two custom fields whose identifiers agree up to their first dash
    collide: only the later one is sent. *)
Example custom_fields_collision :
  customFields (mkValues "W1" (Some ["P1"]) "Ship report" "" "" None
    [(inputId "12-a", "High"); (inputId "12-b", "Low")]) = {[ "12" := VString "Low" ]}.
Proof. vm_compute. reflexivity. Qed.

(** The example of the specification: no custom field, nothing
    optional. *)
Example request_minimal :
  payload (fun _ => 0) false (mkValues "W1" None "Ship report" "" "" None []) =
  mkPayload "W1" "Ship report" ∅ None None None None.
Proof. reflexivity. Qed.

(** ** Dates *)

Lemma DayFromYear_succ (y : Z) : DayFromYear (y + 1) = DayFromYear y + DaysInYear y.
Proof.
  unfold DayFromYear, DaysInYear.
  destruct (Z.eqb_spec (y mod 4) 0), (Z.eqb_spec (y mod 100) 0),
    (Z.eqb_spec (y mod 400) 0); cbn [negb]; Z.div_mod_to_equations; lia.
Qed.

Lemma DayFromYear_mono (y1 y2 : Z) : y1 <= y2 -> DayFromYear y1 <= DayFromYear y2.
Proof. unfold DayFromYear. intros H. Z.div_mod_to_equations. lia. Qed.

Lemma DaysInYear_leap (y : Z) : DaysInYear y = if isLeap y then 366 else 365.
Proof.
  unfold isLeap, DaysInYear.
  destruct (negb (y mod 4 =? 0)), (negb (y mod 100 =? 0)), (negb (y mod 400 =? 0));
    reflexivity.
Qed.

(** The year of a day is the year that ECMA-262 defines: the one whose
    first day is the last not after it. *)
Lemma YearFromDay_bounds (day : Z) :
  DayFromYear (YearFromDay day) <= day < DayFromYear (YearFromDay day + 1).
Proof.
  unfold YearFromDay.
  destruct (Z.ltb_spec day (DayFromYear (1970 + 400 * day / 146097))) as [H1|H1].
  - replace (1970 + 400 * day / 146097 - 1 + 1) with (1970 + 400 * day / 146097) by lia.
    split; [|exact H1]. clear H1. unfold DayFromYear. Z.div_mod_to_equations. lia.
  - destruct (Z.leb_spec (DayFromYear (1970 + 400 * day / 146097 + 1)) day) as [H2|H2].
    + split; [exact H2|]. clear H1 H2. unfold DayFromYear. Z.div_mod_to_equations. lia.
    + split; [exact H1 | exact H2].
Qed.

Lemma YearFromDay_unique (day y : Z) :
  DayFromYear y <= day < DayFromYear (y + 1) -> YearFromDay day = y.
Proof.
  intros [Hlo Hhi]. pose proof (YearFromDay_bounds day) as [Blo Bhi].
  destruct (Z.lt_trichotomy (YearFromDay day) y) as [Hlt|[Heq|Hgt]]; [|exact Heq|].
  - pose proof (DayFromYear_mono (YearFromDay day + 1) y ltac:(lia)). lia.
  - pose proof (DayFromYear_mono (y + 1) (YearFromDay day) ltac:(lia)). lia.
Qed.

Lemma month_cases (m : Z) :
  1 <= m <= 12 ->
  m = 1 \/ m = 2 \/ m = 3 \/ m = 4 \/ m = 5 \/ m = 6 \/
  m = 7 \/ m = 8 \/ m = 9 \/ m = 10 \/ m = 11 \/ m = 12.
Proof. lia. Qed.

Ltac each_month H :=
  apply month_cases in H;
  repeat (destruct H as [H|H]); subst.

Lemma dayOfDate_within_year (y m d : Z) :
  validDate y m d ->
  0 <= dayOfDate y m d - DayFromYear y < DaysInYear y.
Proof.
  intros [Hm Hd]. unfold dayOfDate. rewrite DaysInYear_leap.
  each_month Hm; destruct (isLeap y); cbn in Hd |- *; lia.
Qed.

Section CalendarDay.

(** A time [t] on the calendar day [y]-[m]-[d]. *)
Variables (t y m d : Z).
Hypothesis Hvalid : validDate y m d.
Hypothesis Hday : Day t = dayOfDate y m d.

Lemma YearFromTime_of_date : YearFromTime t = y.
Proof.
  unfold YearFromTime. apply YearFromDay_unique.
  rewrite DayFromYear_succ, Hday.
  pose proof (dayOfDate_within_year y m d Hvalid). lia.
Qed.

Lemma InLeapYear_of_date : InLeapYear t = if isLeap y then 1 else 0.
Proof. unfold InLeapYear. rewrite YearFromTime_of_date. reflexivity. Qed.

Lemma DayWithinYear_of_date :
  DayWithinYear t = daysBeforeMonth (isLeap y) m + (d - 1).
Proof.
  unfold DayWithinYear. rewrite YearFromTime_of_date, Hday.
  unfold dayOfDate. lia.
Qed.

Lemma MonthFromTime_of_date : MonthFromTime t = m - 1.
Proof.
  unfold MonthFromTime. rewrite DayWithinYear_of_date, InLeapYear_of_date.
  destruct Hvalid as [Hm Hd].
  each_month Hm; destruct (isLeap y); cbn in Hd |- *;
    repeat match goal with
           | |- context [?a <? ?b] => destruct (Z.ltb_spec a b); try lia
           end; reflexivity.
Qed.

Lemma DateFromTime_of_date : DateFromTime t = d.
Proof.
  unfold DateFromTime.
  rewrite MonthFromTime_of_date, DayWithinYear_of_date, InLeapYear_of_date.
  destruct Hvalid as [Hm Hd].
  each_month Hm; destruct (isLeap y);
    lazymatch goal with
    | |- context [match ?e with _ => _ end] =>
        let v := eval vm_compute in e in change e with v
    end; cbn; lia.
Qed.

End CalendarDay.

(** *** Numbers in decimal *)

Lemma digits_last (fuel : nat) (n : Z) (acc : string) :
  n < 10 -> Js.digits fuel n acc = String (Js.digit (n mod 10)) acc.
Proof.
  intros H. destruct fuel; cbn [Js.digits]; [reflexivity|].
  destruct (Z.ltb_spec n 10); [reflexivity | lia].
Qed.

Lemma digits_more (fuel : nat) (n : Z) (acc : string) :
  10 <= n ->
  Js.digits (S fuel) n acc = Js.digits fuel (n / 10) (String (Js.digit (n mod 10)) acc).
Proof.
  intros H. cbn [Js.digits]. destruct (Z.ltb_spec n 10); [lia | reflexivity].
Qed.

Lemma log2_at_least (k n : Z) : 0 < k -> k <= n -> Z.log2 k <= Z.log2 n.
Proof. intros _ H. by apply Z.log2_le_mono. Qed.

Lemma digit_eq (a b : Z) : a = b -> Js.digit a = Js.digit b.
Proof. by intros ->. Qed.

Ltac digits_eq :=
  repeat (f_equal; try (apply digit_eq; Z.div_mod_to_equations; lia)).

Lemma toString_1 (n : Z) :
  0 <= n < 10 -> Js.toString n = String (Js.digit n) "".
Proof.
  intros H. unfold Js.toString. rewrite digits_last by lia. digits_eq.
Qed.

Lemma toString_2 (n : Z) :
  10 <= n < 100 ->
  Js.toString n = String (Js.digit (n / 10)) (String (Js.digit (n mod 10)) "").
Proof.
  intros H. unfold Js.toString.
  pose proof (log2_at_least 10 n ltac:(lia) ltac:(lia)) as Hl.
  change (Z.log2 10) with 3 in Hl.
  destruct (Z.to_nat (Z.log2 n)) as [|f] eqn:E; [lia|].
  rewrite digits_more by lia.
  rewrite digits_last by (Z.div_mod_to_equations; lia). digits_eq.
Qed.

Lemma toString_3 (n : Z) :
  100 <= n < 1000 ->
  Js.toString n =
  String (Js.digit (n / 100)) (String (Js.digit (n / 10 mod 10))
    (String (Js.digit (n mod 10)) "")).
Proof.
  intros H. unfold Js.toString.
  pose proof (log2_at_least 100 n ltac:(lia) ltac:(lia)) as Hl.
  change (Z.log2 100) with 6 in Hl.
  destruct (Z.to_nat (Z.log2 n)) as [|[|f]] eqn:E; [lia..|].
  rewrite digits_more by lia.
  rewrite digits_more by (Z.div_mod_to_equations; lia).
  rewrite digits_last by (Z.div_mod_to_equations; lia). digits_eq.
Qed.

Lemma toString_4 (n : Z) :
  1000 <= n < 10000 ->
  Js.toString n =
  String (Js.digit (n / 1000)) (String (Js.digit (n / 100 mod 10))
    (String (Js.digit (n / 10 mod 10)) (String (Js.digit (n mod 10)) ""))).
Proof.
  intros H. unfold Js.toString.
  pose proof (log2_at_least 1000 n ltac:(lia) ltac:(lia)) as Hl.
  change (Z.log2 1000) with 9 in Hl.
  destruct (Z.to_nat (Z.log2 n)) as [|[|[|f]]] eqn:E; [lia..|].
  rewrite digits_more by lia.
  rewrite digits_more by (Z.div_mod_to_equations; lia).
  rewrite digits_more by (Z.div_mod_to_equations; lia).
  rewrite digits_last by (Z.div_mod_to_equations; lia). digits_eq.
Qed.

Ltac by_div := Z.div_mod_to_equations; lia.

Lemma addLeadingZeros_2 (n : Z) :
  0 <= n < 100 ->
  addLeadingZeros n 2 = String (Js.digit (n / 10)) (String (Js.digit (n mod 10)) "").
Proof.
  intros H. unfold addLeadingZeros.
  destruct (Z.ltb_spec n 0); [lia|]. rewrite Z.abs_eq by lia.
  destruct (Z.lt_ge_cases n 10).
  - rewrite toString_1 by lia.
    replace (n / 10) with 0 by by_div. replace (n mod 10) with n by by_div.
    reflexivity.
  - rewrite toString_2 by lia. reflexivity.
Qed.

Lemma addLeadingZeros_4 (n : Z) :
  0 <= n < 10000 ->
  addLeadingZeros n 4 =
  String (Js.digit (n / 1000)) (String (Js.digit (n / 100 mod 10))
    (String (Js.digit (n / 10 mod 10)) (String (Js.digit (n mod 10)) ""))).
Proof.
  intros H. unfold addLeadingZeros.
  destruct (Z.ltb_spec n 0); [lia|]. rewrite Z.abs_eq by lia.
  destruct (Z.lt_ge_cases n 10); [|destruct (Z.lt_ge_cases n 100);
    [|destruct (Z.lt_ge_cases n 1000)]].
  - rewrite toString_1 by lia.
    replace (n / 1000) with 0 by by_div. replace (n / 100) with 0 by by_div.
    replace (n / 10) with 0 by by_div. replace (n mod 10) with n by by_div.
    reflexivity.
  - rewrite toString_2 by lia.
    replace (n / 1000) with 0 by by_div. replace (n / 100) with 0 by by_div.
    replace (n / 10 mod 10) with (n / 10) by by_div.
    reflexivity.
  - rewrite toString_3 by lia.
    replace (n / 1000) with 0 by by_div.
    replace (n / 100 mod 10) with (n / 100) by by_div.
    reflexivity.
  - rewrite toString_4 by lia. reflexivity.
Qed.

Lemma validDate_day_bound (y m d : Z) : validDate y m d -> 1 <= d <= 31.
Proof.
  intros [Hm Hd]. each_month Hm; destruct (isLeap y); cbn in Hd; lia.
Qed.

(** The format of a date whose local time lies on the calendar day
    [y]-[m]-[d], at any time of that day. *)
Lemma format_of_calendar_day (LocalTZA : Z -> Z) (date : Date) (y m d : Z) :
  1 <= y <= 9999 ->
  validDate y m d ->
  Day (LocalTime LocalTZA (getTime date)) = dayOfDate y m d ->
  format_yyyy_MM_dd LocalTZA date = isoDate y m d.
Proof.
  intros Hy Hvalid Hday.
  pose proof (validDate_day_bound y m d Hvalid) as Hd.
  pose proof Hvalid as [Hm Hdm].
  unfold format_yyyy_MM_dd, format_yyyy, format_MM, format_dd,
    getFullYear, getMonth, getDate.
  rewrite (YearFromTime_of_date _ y m d Hvalid Hday).
  rewrite (MonthFromTime_of_date _ y m d Hvalid Hday).
  rewrite (DateFromTime_of_date _ y m d Hvalid Hday).
  destruct (Z.ltb_spec 0 y); [|lia].
  replace (m - 1 + 1) with m by lia.
  rewrite addLeadingZeros_4, !addLeadingZeros_2 by lia.
  reflexivity.
Qed.

(** Two dates whose local times lie on the same day have the same
    format: the time of day is not read. *)
Lemma format_same_local_day (LocalTZA : Z -> Z) (date date' : Date) :
  Day (LocalTime LocalTZA (getTime date)) = Day (LocalTime LocalTZA (getTime date')) ->
  format_yyyy_MM_dd LocalTZA date = format_yyyy_MM_dd LocalTZA date'.
Proof.
  intros Hday.
  unfold format_yyyy_MM_dd, format_yyyy, format_MM, format_dd,
    getFullYear, getMonth, getDate, DateFromTime, MonthFromTime,
    DayWithinYear, InLeapYear, YearFromTime.
  by rewrite Hday.
Qed.

(** C4: the request has [assignee] exactly when the draft's assignee
    is set (not empty) and [due_on] exactly when the draft has a due
    date; [due_on] is then the format of the chosen date, which reads
    only the day on which its local time lies: for a date on the
    calendar day [y]-[m]-[d] of the local time zone it is that day
    written yyyy-MM-dd, whatever the time of day and the time zone. *)
Theorem assignee_and_due_on (LocalTZA : Z -> Z) (signature : bool)
    (values : TaskFormValues) :
  (is_Some (Api.assignee (payload LocalTZA signature values))
     <-> CreateTask.assignee values <> "") /\
  (forall a, Api.assignee (payload LocalTZA signature values) = Some a ->
     a = CreateTask.assignee values) /\
  (is_Some (due_on (payload LocalTZA signature values))
     <-> is_Some (due_date values)) /\
  (forall date date',
     due_date values = Some date ->
     Day (LocalTime LocalTZA (getTime date)) = Day (LocalTime LocalTZA (getTime date')) ->
     due_on (payload LocalTZA signature values) =
       Some (format_yyyy_MM_dd LocalTZA date')) /\
  (forall date y m d,
     due_date values = Some date ->
     1 <= y <= 9999 ->
     validDate y m d ->
     Day (LocalTime LocalTZA (getTime date)) = dayOfDate y m d ->
     due_on (payload LocalTZA signature values) = Some (isoDate y m d)).
Proof.
  cbn [payload Api.assignee due_on].
  split; [|split; [|split; [|split]]].
  - split.
    + destruct (Js.truthy _) eqn:E; [intros _; by apply truthy_true | intros [? [=]]].
    + intros Hne. apply truthy_true in Hne. rewrite Hne. eauto.
  - destruct (Js.truthy _); intros a [=]. done.
  - destruct (due_date values); split; eauto; intros [? [=]].
  - intros date date' -> Hday. by rewrite (format_same_local_day _ _ _ Hday).
  - intros date y m d -> Hy Hvalid Hday.
    by rewrite (format_of_calendar_day _ _ y m d Hy Hvalid Hday).
Qed.

(** The example of the specification: due date 2024-05-01. The date
    picked at local midnight two hours east of UTC is still the 30th of
    April in UTC; the request carries the local day. *)
Example due_on_2024_05_01 :
  let date := mkDate (1714521600000 - 7200000) in
  let values := mkValues "W1" None "Ship report" "Draft v1" "" (Some date) [] in
  due_on (payload (fun _ => 7200000) true values) = Some "2024-05-01" /\
  due_on (payload (fun _ => 0) true values) = Some "2024-04-30" /\
  isoDate 2024 5 1 = "2024-05-01" /\
  Day (LocalTime (fun _ => 7200000) (getTime date)) = dayOfDate 2024 5 1.
Proof. repeat split; vm_compute; reflexivity. Qed.

(** ** The submission *)

Section SubmissionFacts.

Context {Error : Type}.
Variable getErrorMessage : Error -> string.
Variable LocalTZA : Z -> Z.
Variable signature : bool.
Variable remote : CreateTaskPayload -> Error + Task.

#[local] Abbreviation onSubmit :=
  (onSubmit getErrorMessage LocalTZA signature remote).
#[local] Abbreviation submit :=
  (submit getErrorMessage LocalTZA signature remote).
#[local] Abbreviation request := (payload LocalTZA signature).

Lemma onSubmit_rejected (values : TaskFormValues) (w : World) (error : Error) :
  remote (request values) = inl error ->
  onSubmit values w =
  (Normal tt,
   {| toast := Some (failureToast (getErrorMessage error));
      form := form w;
      errors := errors w;
      trace := (trace w ++ [ToastShow]) ++ [CreateTaskCall (request values)] |}).
Proof.
  intros Hr. unfold CreateTaskForm.onSubmit, try_catch, mbind, M_bind, createTask.
  cbn. rewrite Hr. reflexivity.
Qed.

Lemma onSubmit_created (values : TaskFormValues) (w : World) (task : Task) :
  remote (request values) = inr task ->
  onSubmit values w =
  (Normal tt,
   {| toast := Some (successToast task);
      form := replaceValues resetGiven (form w);
      errors := [];
      trace := ((((trace w ++ [ToastShow]) ++ [CreateTaskCall (request values)])
                 ++ [FormReset resetGiven]) ++ [Focus "name"]) |}).
Proof.
  intros Hr. unfold CreateTaskForm.onSubmit, try_catch, mbind, M_bind, createTask.
  cbn. rewrite Hr. reflexivity.
Qed.

Lemma submit_valid (values : TaskFormValues) :
  CreateTask.workspace values <> "" ->
  CreateTask.name values <> "" ->
  submit values = onSubmit values (opened values).
Proof.
  intros Hw Hn. apply truthy_true in Hw, Hn.
  unfold CreateTaskForm.submit, handleSubmit, validation, required.
  rewrite Hw, Hn. reflexivity.
Qed.

(** A draft that fails a rule is not sent. *)
Lemma submit_invalid (values : TaskFormValues) :
  CreateTask.workspace values = "" \/ CreateTask.name values = "" ->
  createTaskCalls (trace (snd (submit values))) = [] /\
  form (snd (submit values)) = held values.
Proof.
  unfold CreateTaskForm.submit, handleSubmit, validation, required.
  intros [H|H]; rewrite H; cbn; [done|].
  destruct (Js.truthy (CreateTask.workspace values)); done.
Qed.

Lemma onSubmit_calls_once (values : TaskFormValues) :
  createTaskCalls (trace (snd (onSubmit values (opened values)))) = [request values].
Proof.
  destruct (remote (request values)) as [error|task] eqn:Hr.
  - by rewrite (onSubmit_rejected values _ error Hr).
  - by rewrite (onSubmit_created values _ task Hr).
Qed.

(** C6: [onSubmit] makes exactly one create-task call, whatever the
    outcome; when the call fails the toast turns to a failure that
    carries the message of the error, and nothing else is called;
    when it succeeds the toast's actions carry the task that the
    service returned. *)
Theorem one_call_then_outcome (values : TaskFormValues) :
  fst (onSubmit values (opened values)) = Normal tt /\
  createTaskCalls (trace (snd (onSubmit values (opened values)))) = [request values] /\
  (forall error, remote (request values) = inl error ->
     toast (snd (onSubmit values (opened values))) =
       Some (failureToast (getErrorMessage error)) /\
     trace (snd (onSubmit values (opened values))) =
       [ToastShow; CreateTaskCall (request values)]) /\
  (forall task, remote (request values) = inr task ->
     toast (snd (onSubmit values (opened values))) = Some (successToast task) /\
     fst (@runHandler Error (OpenTask task)
            (snd (onSubmit values (opened values)))) = Normal tt /\
     last (trace (snd (@runHandler Error (OpenTask task)
            (snd (onSubmit values (opened values)))))) = Some (NavigationPush task)).
Proof.
  destruct (remote (request values)) as [error|task] eqn:Hr.
  - rewrite (onSubmit_rejected values _ error Hr). cbn.
    split; [reflexivity|]. split; [reflexivity|]. split.
    + intros ? [= <-]. done.
    + intros ? [=].
  - rewrite (onSubmit_created values _ task Hr). cbn.
    split; [reflexivity|]. split; [reflexivity|]. split.
    + intros ? [=].
    + intros ? [= <-]. done.
Qed.

(** C3: a draft whose workspace and name are not empty passes the
    form's validation and is sent, once; the request carries the
    draft's workspace and name unchanged. *)
Theorem workspace_and_name_unchanged (values : TaskFormValues) :
  CreateTask.workspace values <> "" ->
  CreateTask.name values <> "" ->
  createTaskCalls (trace (snd (submit values))) = [request values] /\
  Api.workspace (request values) = CreateTask.workspace values /\
  Api.name (request values) = CreateTask.name values.
Proof.
  intros Hw Hn. rewrite (submit_valid values Hw Hn).
  split; [apply onSubmit_calls_once | split; reflexivity].
Qed.

(** C7: when the create-task call fails, the form still holds every
    value that was submitted: [reset] is not called. *)
Theorem failure_keeps_the_draft (values : TaskFormValues) (error : Error) :
  remote (request values) = inl error ->
  form (snd (onSubmit values (opened values))) = held values /\
  formResets (trace (snd (onSubmit values (opened values)))) = [].
Proof.
  intros Hr. rewrite (onSubmit_rejected values _ error Hr). split; reflexivity.
Qed.

End SubmissionFacts.

(** *** Concrete submissions *)

Lemma workspace_and_name_unchanged_witness :
  createTaskCalls (trace (snd
    (submit (fun e => e) (fun _ => 0) true accepting sampleDraft))) =
    [payload (fun _ => 0) true sampleDraft] /\
  Api.workspace (payload (fun _ => 0) true sampleDraft) = "W1" /\
  Api.name (payload (fun _ => 0) true sampleDraft) = "Ship report".
Proof.
  apply (workspace_and_name_unchanged (fun e => e) (fun _ => 0) true accepting
           sampleDraft); discriminate.
Defined.

Lemma failure_keeps_the_draft_witness :
  form (snd (onSubmit (fun e => e) (fun _ => 0) true rejecting
               sampleDraft (opened sampleDraft))) = held sampleDraft /\
  formResets (trace (snd (onSubmit (fun e => e) (fun _ => 0) true rejecting
               sampleDraft (opened sampleDraft)))) = [].
Proof.
  apply (failure_keeps_the_draft (fun e => e) (fun _ => 0) true rejecting
           sampleDraft "Invalid custom field").
  reflexivity.
Defined.

(** The failure toast carries the message of the service's error. *)
Example rejected_message :
  toast (snd (onSubmit (fun e => e) (fun _ => 0) true rejecting
                sampleDraft (opened sampleDraft))) =
  Some (failureToast "Invalid custom field").
Proof. reflexivity. Qed.

(** * Further properties *)

(** ** What the request holds *)

Lemma append_not_empty_r (s t : string) : t <> "" -> s +:+ t <> "".
Proof. destruct s; [done | discriminate]. Qed.

Lemma append_not_empty_l (s t : string) : s <> "" -> s +:+ t <> "".
Proof. destruct s; [done | discriminate]. Qed.

Lemma format_not_empty (LocalTZA : Z -> Z) (date : Date) :
  format_yyyy_MM_dd LocalTZA date <> "".
Proof.
  unfold format_yyyy_MM_dd. apply append_not_empty_r, append_not_empty_l. discriminate.
Qed.

Lemma customFields_values (values : TaskFormValues) (k : string) (x : FormValue) :
  customFields values !! k = Some x ->
  exists gid s, x = VString s /\ s <> "" /\ In (inputId gid, s) (inputs values) /\
                k = beforeSep "-" gid.
Proof.
  rewrite customFields_lookup. intros Hx.
  apply lastFor_Some in Hx as (key & Hin & Hk).
  apply elem_of_customFieldsEntries in Hin as (gid & s & -> & -> & Hs & Hin).
  rewrite fieldId_inputId in Hk. eauto 10.
Qed.

(** X1: whatever the draft, no key of the request holds an empty
    value: [projects] is never the empty list, [assignee], [html_notes]
    and [due_on] are never the empty string, and every custom field
    holds a non-empty string that some custom-field input held. *)
Theorem request_holds_no_empty_value (LocalTZA : Z -> Z) (signature : bool)
    (values : TaskFormValues) :
  Api.projects (payload LocalTZA signature values) <> Some [] /\
  Api.assignee (payload LocalTZA signature values) <> Some "" /\
  html_notes (payload LocalTZA signature values) <> Some "" /\
  due_on (payload LocalTZA signature values) <> Some "" /\
  (forall k x, custom_fields (payload LocalTZA signature values) !! k = Some x ->
     exists s, x = VString s /\ s <> "" /\
               exists gid, In (inputId gid, s) (inputs values)).
Proof.
  cbn [payload Api.projects Api.assignee html_notes due_on custom_fields].
  split; [|split; [|split; [|split]]].
  - destruct (CreateTask.projects values) as [[|p l]|]; cbn; congruence.
  - destruct (CreateTask.assignee values); cbn; congruence.
  - destruct (Js.truthy _); [|congruence].
    intros [= H]. revert H. unfold htmlNotes.
    apply append_not_empty_r. discriminate.
  - destruct (due_date values) as [date|]; [|congruence].
    intros [= H]. by apply format_not_empty in H.
  - intros k x Hx. apply customFields_values in Hx as (gid & s & -> & Hs & Hin & _).
    eauto.
Qed.

(** ** Custom fields: order, collisions and inputs that do not count *)

Lemma lastFor_app (k : string) (l1 l2 : list (string * FormValue)) :
  lastFor k (l1 ++ l2) =
  match lastFor k l2 with
  | Some v => Some v
  | None => lastFor k l1
  end.
Proof.
  induction l1 as [|[key value] l1 IH]; cbn [app lastFor].
  - by destruct (lastFor k l2).
  - rewrite IH. by destruct (lastFor k l2).
Qed.

Lemma customFieldsEntries_withInputs (values : TaskFormValues) (l1 l2 : list (string * string)) :
  customFieldsEntries (withInputs values (l1 ++ l2)) =
  (customFieldsEntries (withInputs values l1) ++
   customFieldsEntries (withInputs values l2))%list.
Proof.
  rewrite !customFieldsEntries_inputs. cbn [withInputs inputs].
  by rewrite map_app, List.filter_app.
Qed.

Lemma withInputs_same (values : TaskFormValues) : withInputs values (inputs values) = values.
Proof. by destruct values. Qed.

(** X2: when several non-empty custom-field inputs are cut to the same
    key, the request holds the value of the last of them in the order of
    the form. *)
Theorem custom_fields_last_input_wins (LocalTZA : Z -> Z) (signature : bool)
    (values : TaskFormValues) (before after : list (string * string))
    (gid s : string) :
  inputs values = (before ++ (inputId gid, s) :: after)%list ->
  s <> "" ->
  (forall gid' s', In (inputId gid', s') after -> s' <> "" ->
     fieldId (inputId gid') <> fieldId (inputId gid)) ->
  custom_fields (payload LocalTZA signature values) !! fieldId (inputId gid)
    = Some (VString s).
Proof.
  intros Hin Hs Hafter. cbn [payload custom_fields].
  rewrite customFields_lookup, <- (withInputs_same values), Hin.
  change (before ++ (inputId gid, s) :: after)%list
    with (before ++ [(inputId gid, s)] ++ after)%list.
  rewrite !customFieldsEntries_withInputs, !lastFor_app.
  destruct (lastFor _ (customFieldsEntries (withInputs values after))) as [v|] eqn:E.
  - apply lastFor_Some in E as (key & Hk & Hid).
    apply elem_of_customFieldsEntries in Hk as (g & s' & -> & -> & Hs' & Hk).
    destruct (Hafter g s' Hk Hs' Hid).
  - assert (Hone : customFieldsEntries (withInputs values [(inputId gid, s)])
                   = [(inputId gid, VString s)]).
    { rewrite customFieldsEntries_inputs. cbn [withInputs inputs map List.filter].
      assert (Hp : Js.startsWith (inputId gid) "field-" = true)
        by (apply startsWith_field; eauto).
      rewrite Hp. destruct s; [done | reflexivity]. }
    rewrite Hone. cbn [lastFor]. by rewrite decide_True.
Qed.

Lemma custom_fields_last_input_wins_witness :
  custom_fields (payload (fun _ => 0) false
    (mkValues "W1" None "Ship report" "" "" None
       [(inputId "12-a", "High"); (inputId "12-b", "Low"); (inputId "7", "x")]))
    !! fieldId (inputId "12-b") = Some (VString "Low").
Proof.
  apply (custom_fields_last_input_wins (fun _ => 0) false
           (mkValues "W1" None "Ship report" "" "" None
              [(inputId "12-a", "High"); (inputId "12-b", "Low"); (inputId "7", "x")])
           [(inputId "12-a", "High")] [(inputId "7", "x")] "12-b" "Low").
  - reflexivity.
  - discriminate.
  - intros gid' s' [[= Hg _]|[]] _. change ("7" = gid') in Hg. subst gid'.
    vm_compute. discriminate.
Defined.

(** X3: an input of the form whose id does not start with "field-",
    or whose value is empty, does not count: the request is the one
    built without it. *)
Theorem input_that_does_not_count (LocalTZA : Z -> Z) (signature : bool)
    (values : TaskFormValues) (before after : list (string * string))
    (id s : string) :
  Js.startsWith id "field-" = false \/ s = "" ->
  payload LocalTZA signature (withInputs values (before ++ (id, s) :: after)) =
  payload LocalTZA signature (withInputs values (before ++ after)).
Proof.
  intros Hskip.
  assert (Hentries :
    customFieldsEntries (withInputs values (before ++ (id, s) :: after)) =
    customFieldsEntries (withInputs values (before ++ after))).
  { change (before ++ (id, s) :: after)%list with (before ++ [(id, s)] ++ after)%list.
    rewrite !customFieldsEntries_withInputs.
    assert (Hone : customFieldsEntries (withInputs values [(id, s)]) = []).
    { rewrite customFieldsEntries_inputs. cbn [withInputs inputs map List.filter].
      destruct Hskip as [-> | ->]; [reflexivity|].
      by rewrite andb_false_r. }
    by rewrite Hone. }
  unfold payload, customFields. rewrite Hentries. reflexivity.
Qed.

Lemma input_that_does_not_count_witness :
  payload (fun _ => 0) true
    (withInputs sampleDraft ([(inputId "8", "High")] ++ ("note", "seen") :: [])) =
  payload (fun _ => 0) true (withInputs sampleDraft ([(inputId "8", "High")] ++ [])).
Proof.
  apply (input_that_does_not_count (fun _ => 0) true sampleDraft
           [(inputId "8", "High")] [] "note" "seen").
  left. reflexivity.
Defined.

(** X4: the id of a custom-field input gives back the identifier of
    its custom field exactly when the identifier holds no dash. *)
Theorem input_id_round_trip (gid : string) :
  fieldId (inputId gid) = gid <-> ~ hasDash gid.
Proof.
  rewrite fieldId_inputId. unfold hasDash. split.
  - intros Heq [rest Hrest].
    pose proof (beforeSep_has_no_sep "-" gid) as Hnone.
    rewrite Heq in Hnone. congruence.
  - intros Hno. apply beforeSep_no_sep.
    destruct (afterSep "-" gid); [destruct Hno; eauto | reflexivity].
Qed.

(** ** What the preference and the time zone change *)

Lemma wrappedNotes_signature_differs (text : string) :
  wrappedNotes true text <> wrappedNotes false text.
Proof.
  unfold wrappedNotes. intros H.
  apply (inj (String.app "<body>")), (inj (String.app text)) in H.
  vm_compute in H. discriminate.
Qed.

Lemma html_notes_facts (LocalTZA : Z -> Z) (signature : bool) (values : TaskFormValues) :
  html_notes (payload LocalTZA signature values) =
    (if decide (description values = "") then None
     else Some (wrappedNotes signature (description values))).
Proof.
  cbn [payload html_notes].
  destruct (decide (description values = "")) as [He|Hne].
  - by rewrite He.
  - pose proof Hne as Ht. apply truthy_true in Ht. rewrite Ht.
    by rewrite (htmlNotes_described _ _ Hne).
Qed.

(** X5: the signature preference changes the request exactly when the
    description is not empty, and then only its [html_notes]; the time
    zone changes nothing in a request without a due date. *)
Theorem preference_and_time_zone_frame (LocalTZA LocalTZA' : Z -> Z)
    (values : TaskFormValues) :
  (payload LocalTZA true values = payload LocalTZA false values
     <-> description values = "") /\
  (forall signature signature',
     Api.workspace (payload LocalTZA signature values)
       = Api.workspace (payload LocalTZA signature' values) /\
     Api.name (payload LocalTZA signature values)
       = Api.name (payload LocalTZA signature' values) /\
     custom_fields (payload LocalTZA signature values)
       = custom_fields (payload LocalTZA signature' values) /\
     Api.projects (payload LocalTZA signature values)
       = Api.projects (payload LocalTZA signature' values) /\
     Api.assignee (payload LocalTZA signature values)
       = Api.assignee (payload LocalTZA signature' values) /\
     due_on (payload LocalTZA signature values)
       = due_on (payload LocalTZA signature' values)) /\
  (forall signature, due_date values = None ->
     payload LocalTZA signature values = payload LocalTZA' signature values).
Proof.
  split; [|split].
  - split.
    + intros Heq. apply (f_equal html_notes) in Heq.
      destruct (decide (description values = "")) as [|Hne]; [done|].
      pose proof (html_notes_facts LocalTZA true values) as Ht.
      pose proof (html_notes_facts LocalTZA false values) as Hf.
      rewrite decide_False in Ht, Hf by done.
      rewrite Ht, Hf in Heq.
      destruct (wrappedNotes_signature_differs (description values)).
      congruence.
    + intros He. unfold payload. rewrite He. reflexivity.
  - intros signature signature'. repeat split.
  - intros signature Hd. unfold payload. rewrite Hd. reflexivity.
Qed.

(** ** Validation, repeated submissions and the toast actions *)

Section SubmissionMore.

Context {Error : Type}.
Variable getErrorMessage : Error -> string.
Variable LocalTZA : Z -> Z.
Variable signature : bool.
Variable remote : CreateTaskPayload -> Error + Task.

#[local] Abbreviation onSubmit :=
  (onSubmit getErrorMessage LocalTZA signature remote).
#[local] Abbreviation submit :=
  (submit getErrorMessage LocalTZA signature remote).
#[local] Abbreviation request := (payload LocalTZA signature).

Lemma createTaskCalls_app (l1 l2 : list Event) :
  createTaskCalls (l1 ++ l2) = (createTaskCalls l1 ++ createTaskCalls l2)%list.
Proof. unfold createTaskCalls. apply omap_app. Qed.

Lemma onSubmit_completes (values : TaskFormValues) (w : World) :
  fst (onSubmit values w) = Normal tt /\
  errors (snd (onSubmit values w)) =
    (if remote (request values) is inr _ then [] else errors w) /\
  createTaskCalls (trace (snd (onSubmit values w))) =
    (createTaskCalls (trace w) ++ [request values])%list.
Proof.
  destruct (remote (request values)) as [error|task] eqn:Hr.
  - rewrite (onSubmit_rejected _ _ _ _ values w error Hr). cbn.
    rewrite !createTaskCalls_app. cbn. by rewrite app_nil_r.
  - rewrite (onSubmit_created _ _ _ _ values w task Hr). cbn.
    rewrite !createTaskCalls_app. cbn. by rewrite !app_nil_r.
Qed.

(** X6: a draft is sent exactly when its workspace and its name are
    not empty; a draft that is not sent shows no toast and leaves the
    form as it is. *)
Theorem sent_iff_workspace_and_name (values : TaskFormValues) :
  (createTaskCalls (trace (snd (submit values))) = [request values]
     <-> CreateTask.workspace values <> "" /\ CreateTask.name values <> "") /\
  (createTaskCalls (trace (snd (submit values))) = []
     <-> CreateTask.workspace values = "" \/ CreateTask.name values = "") /\
  (CreateTask.workspace values = "" \/ CreateTask.name values = "" ->
     toast (snd (submit values)) = None /\
     form (snd (submit values)) = held values /\
     ~ In ToastShow (trace (snd (submit values)))).
Proof.
  unfold CreateTaskForm.submit, handleSubmit, validation, required.
  destruct (CreateTask.workspace values) as [|c ws] eqn:Ew;
    destruct (CreateTask.name values) as [|c' nm] eqn:En; cbn [Js.truthy app].
  1-3: cbn; (split; [|split]);
    [ split; [discriminate | intros [? ?]; congruence]
    | split; [intros _; auto | reflexivity]
    | intros _; repeat split; intros [[=]|[]] ].
  pose proof (onSubmit_completes values (opened values)) as (_ & _ & Hc).
  rewrite Hc. cbn.
  split; [|split].
  - split; [intros _; split; discriminate | reflexivity].
  - split; [discriminate | intros [?|?]; discriminate].
  - intros [?|?]; discriminate.
Qed.

(** X7: [onSubmit] never throws, from any state, and every run adds
    exactly one create-task call to those made before: submitting again
    after a failure sends the request again, once. A run that succeeds
    clears the validation errors, through [reset]; a run that fails
    leaves them. *)
Theorem every_run_adds_one_call (first second : TaskFormValues) (w : World) :
  fst (onSubmit second (snd (onSubmit first w))) = Normal tt /\
  createTaskCalls (trace (snd (onSubmit second (snd (onSubmit first w))))) =
    (createTaskCalls (trace w) ++ [request first; request second])%list /\
  errors (snd (onSubmit first w)) =
    (if remote (request first) is inr _ then [] else errors w) /\
  errors (snd (onSubmit second (snd (onSubmit first w)))) =
    (if remote (request second) is inr _ then []
     else if remote (request first) is inr _ then [] else errors w).
Proof.
  pose proof (onSubmit_completes first w) as (_ & He1 & Hc1).
  pose proof (onSubmit_completes second (snd (onSubmit first w))) as (Hn & He2 & Hc2).
  split; [exact Hn|]. split; [|split; [exact He1|]].
  - rewrite Hc2, Hc1, <- app_assoc. reflexivity.
  - rewrite He2, He1. reflexivity.
Qed.

(** X8: after a successful submission the toast's second action copies
    the permalink of the created task, retitles the toast with the
    permalink as its message, and does nothing else: no call to the
    service, no change to the form, the style and the two actions of the
    toast stay. *)
Theorem copy_action_copies_permalink (values : TaskFormValues) (task : Task) :
  remote (request values) = inr task ->
  exists action,
    (toast (snd (onSubmit values (opened values))) ≫= secondaryAction) = Some action /\
    action_title action = "Copy Task URL" /\
    toast (snd (@runHandler Error (onAction action)
                  (snd (onSubmit values (opened values))))) =
      Some (mkToast Success "Copied to clipboard" (Some (permalink_url task))
              (primaryAction (successToast task)) (secondaryAction (successToast task))) /\
    trace (snd (@runHandler Error (onAction action)
                  (snd (onSubmit values (opened values))))) =
      (trace (snd (onSubmit values (opened values))) ++
       [ClipboardCopy (permalink_url task)])%list /\
    form (snd (@runHandler Error (onAction action)
                  (snd (onSubmit values (opened values))))) =
      form (snd (onSubmit values (opened values))).
Proof.
  intros Hr. rewrite (onSubmit_created _ _ _ _ values _ task Hr). cbn.
  eexists. split; [reflexivity|]. repeat split.
Qed.

End SubmissionMore.

Lemma copy_action_copies_permalink_witness :
  exists action,
    (toast (snd (onSubmit (fun e : string => e) (fun _ => 0) true accepting
                   sampleDraft (opened sampleDraft))) ≫= secondaryAction) = Some action /\
    action_title action = "Copy Task URL" /\
    toast (snd (@runHandler string (onAction action)
                  (snd (onSubmit (fun e : string => e) (fun _ => 0) true accepting
                          sampleDraft (opened sampleDraft))))) =
      Some (mkToast Success "Copied to clipboard" (Some (permalink_url sampleTask))
              (primaryAction (successToast sampleTask))
              (secondaryAction (successToast sampleTask))) /\
    trace (snd (@runHandler string (onAction action)
                  (snd (onSubmit (fun e : string => e) (fun _ => 0) true accepting
                          sampleDraft (opened sampleDraft))))) =
      (trace (snd (onSubmit (fun e : string => e) (fun _ => 0) true accepting
                     sampleDraft (opened sampleDraft))) ++
       [ClipboardCopy (permalink_url sampleTask)])%list /\
    form (snd (@runHandler string (onAction action)
                  (snd (onSubmit (fun e : string => e) (fun _ => 0) true accepting
                          sampleDraft (opened sampleDraft))))) =
      form (snd (onSubmit (fun e : string => e) (fun _ => 0) true accepting
                   sampleDraft (opened sampleDraft))).
Proof.
  apply (copy_action_copies_permalink (fun e : string => e) (fun _ => 0) true
           accepting sampleDraft sampleTask).
  reflexivity.
Defined.

(** ** Notes and description *)

Lemma length_append (s t : string) :
  String.length (s +:+ t) = (String.length s + String.length t)%nat.
Proof.
  induction s as [|a s IH]; [reflexivity|].
  rewrite append_cons. cbn [String.length]. by rewrite IH.
Qed.

Lemma append_cancel_r (s t u : string) : s +:+ u = t +:+ u -> s = t.
Proof.
  revert t. induction s as [|a s IH]; intros [|b t] H.
  - reflexivity.
  - apply (f_equal String.length) in H.
    rewrite !length_append in H. cbn [String.length] in H. lia.
  - apply (f_equal String.length) in H.
    rewrite !length_append in H. cbn [String.length] in H. lia.
  - rewrite !append_cons in H. injection H as -> H. f_equal. by apply IH.
Qed.

(** X9: the description is put into the notes as it is and can be
    read back: under one signature preference, two drafts have the same
    [html_notes] only if they have the same description. *)
Theorem notes_determine_description (LocalTZA LocalTZA' : Z -> Z) (signature : bool)
    (values values' : TaskFormValues) :
  html_notes (payload LocalTZA signature values) =
    html_notes (payload LocalTZA' signature values') ->
  description values = description values'.
Proof.
  rewrite !html_notes_facts.
  destruct (decide (description values = "")) as [He|Hne],
    (decide (description values' = "")) as [He'|Hne']; try congruence.
  intros H.
  assert (H' : wrappedNotes signature (description values) =
               wrappedNotes signature (description values')) by congruence.
  clear H. rename H' into H. unfold wrappedNotes in H.
  apply (inj (String.app "<body>")) in H.
  by apply append_cancel_r in H.
Qed.

Lemma notes_determine_description_witness :
  description sampleDraft = description (withInputs sampleDraft []).
Proof.
  apply (notes_determine_description (fun _ => 0) (fun _ => 1) true
           sampleDraft (withInputs sampleDraft [])).
  reflexivity.
Defined.

(** ** Splitting a string *)

Lemma split_not_nil (sep : ascii) (s : string) : Js.split sep s <> [].
Proof. rewrite split_pieces. discriminate. Qed.

Lemma concat_cons_pieces (sep : ascii) (piece : string) (pieces : list string) :
  pieces <> [] ->
  String.concat (String sep "") (piece :: pieces) =
  piece +:+ String sep (String.concat (String sep "") pieces).
Proof. destruct pieces; [done | reflexivity]. Qed.

(** X10: splitting a string at a character loses nothing: the pieces,
    joined again with that character, give the string back; there is
    always at least one piece, and no piece holds the character. *)
Theorem split_then_join (sep : ascii) (s : string) :
  String.concat (String sep "") (Js.split sep s) = s /\
  Js.split sep s <> [] /\
  (forall piece, In piece (Js.split sep s) -> afterSep sep piece = None).
Proof.
  assert (Hshorter : forall s rest, afterSep sep s = Some rest ->
            (String.length rest < String.length s)%nat).
  { intros s0 rest E. apply before_after_sep in E.
    apply (f_equal String.length) in E.
    rewrite length_append in E. cbn [String.length] in E. lia. }
  split; [|split; [apply split_not_nil|]].
  - induction s as [s IH] using (induction_ltof1 _ String.length).
    unfold ltof in IH. rewrite split_pieces.
    destruct (afterSep sep s) as [rest|] eqn:E.
    + rewrite concat_cons_pieces by apply split_not_nil.
      rewrite (IH rest (Hshorter s rest E)).
      symmetry. by apply before_after_sep.
    + cbn [String.concat]. by apply beforeSep_no_sep.
  - induction s as [s IH] using (induction_ltof1 _ String.length).
    unfold ltof in IH. intros piece. rewrite split_pieces. intros [<-|Hin].
    + apply beforeSep_has_no_sep.
    + destruct (afterSep sep s) as [rest|] eqn:E; [|destruct Hin].
      exact (IH rest (Hshorter s rest E) piece Hin).
Qed.

(** ** The calendar *)

Lemma DayWithinYear_bounds (t : Z) :
  0 <= DayWithinYear t < DaysInYear (YearFromTime t).
Proof.
  unfold DayWithinYear, YearFromTime.
  pose proof (YearFromDay_bounds (Day t)) as H.
  rewrite DayFromYear_succ in H. lia.
Qed.

Ltac literal_sums :=
  repeat match goal with
         | |- context [Z0 + 1] => change (Z0 + 1) with 1
         | |- context [Zpos ?p + 1] =>
             let v := eval vm_compute in (Zpos p + 1) in change (Zpos p + 1) with v
         end.

(** The getters name a day of the calendar, and it is the day of the
    time. *)
Lemma calendar_of_time (t : Z) :
  validDate (YearFromTime t) (MonthFromTime t + 1) (DateFromTime t) /\
  dayOfDate (YearFromTime t) (MonthFromTime t + 1) (DateFromTime t) = Day t.
Proof.
  pose proof (DayWithinYear_bounds t) as Hb. rewrite DaysInYear_leap in Hb.
  assert (Hday : Day t = DayFromYear (YearFromTime t) + DayWithinYear t)
    by (unfold DayWithinYear; lia).
  unfold validDate, dayOfDate, DateFromTime, MonthFromTime, InLeapYear.
  rewrite Hday. fold (isLeap (YearFromTime t)).
  generalize dependent (DayWithinYear t). intros dw Hb _.
  destruct (isLeap (YearFromTime t));
    repeat match goal with
           | |- context [?a <? ?b] => destruct (Z.ltb_spec a b)
           end; try lia; literal_sums; cbn; lia.
Qed.

(** X11: every time lies on exactly one day of the calendar, the one
    that the year, month and day-of-month functions return: that day is
    a valid date whose day number is the day of the time, the year is the
    one whose first day is the last not after the time, and any valid
    date with that day number is this one. *)
Theorem time_to_date_and_back (t : Z) :
  validDate (YearFromTime t) (MonthFromTime t + 1) (DateFromTime t) /\
  dayOfDate (YearFromTime t) (MonthFromTime t + 1) (DateFromTime t) = Day t /\
  DayFromYear (YearFromTime t) <= Day t < DayFromYear (YearFromTime t + 1) /\
  (forall y m d, validDate y m d -> Day t = dayOfDate y m d ->
     y = YearFromTime t /\ m = MonthFromTime t + 1 /\ d = DateFromTime t).
Proof.
  destruct (calendar_of_time t) as [Hv Hd].
  split; [exact Hv|]. split; [exact Hd|].
  split; [apply YearFromDay_bounds|].
  intros y m d Hvalid Hday.
  rewrite (YearFromTime_of_date t y m d Hvalid Hday).
  rewrite (MonthFromTime_of_date t y m d Hvalid Hday).
  rewrite (DateFromTime_of_date t y m d Hvalid Hday).
  repeat split; lia.
Qed.

Lemma digit_inj (a b : Z) : 0 <= a <= 9 -> 0 <= b <= 9 -> Js.digit a = Js.digit b -> a = b.
Proof.
  intros Ha Hb H. unfold Js.digit in H.
  apply (f_equal nat_of_ascii) in H.
  rewrite !nat_ascii_embedding in H by lia. lia.
Qed.

Lemma isoDate_inj (y m d y' m' d' : Z) :
  0 <= y <= 9999 -> 0 <= m <= 99 -> 0 <= d <= 99 ->
  0 <= y' <= 9999 -> 0 <= m' <= 99 -> 0 <= d' <= 99 ->
  isoDate y m d = isoDate y' m' d' -> y = y' /\ m = m' /\ d = d'.
Proof.
  intros Hy Hm Hd Hy' Hm' Hd' H. unfold isoDate in H.
  injection H as H1 H2 H3 H4 H5 H6 H7 H8.
  apply digit_inj in H1, H2, H3, H4, H5, H6, H7, H8;
    Z.div_mod_to_equations; lia.
Qed.

(** X12: for due dates whose local year is between 1 and 9999, two
    requests carry the same [due_on] exactly when the two dates lie on
    the same local day: the string names the day and nothing of the time
    of day. *)
Theorem due_on_names_the_local_day (LocalTZA : Z -> Z) (signature signature' : bool)
    (values values' : TaskFormValues) (date date' : Date) :
  due_date values = Some date ->
  due_date values' = Some date' ->
  1 <= getFullYear LocalTZA date <= 9999 ->
  1 <= getFullYear LocalTZA date' <= 9999 ->
  due_on (payload LocalTZA signature values) =
    due_on (payload LocalTZA signature' values')
  <-> Day (LocalTime LocalTZA (getTime date)) = Day (LocalTime LocalTZA (getTime date')).
Proof.
  intros Hd Hd' Hy Hy'. cbn [payload due_on]. rewrite Hd, Hd'.
  unfold getFullYear in Hy, Hy'.
  set (t := LocalTime LocalTZA (getTime date)) in *.
  set (t' := LocalTime LocalTZA (getTime date')) in *.
  split; [|intros H; f_equal; by apply format_same_local_day].
  intros H.
  destruct (calendar_of_time t) as [Hv Hday].
  destruct (calendar_of_time t') as [Hv' Hday'].
  assert (Hf : isoDate (YearFromTime t) (MonthFromTime t + 1) (DateFromTime t) =
               isoDate (YearFromTime t') (MonthFromTime t' + 1) (DateFromTime t')).
  { rewrite <- (format_of_calendar_day LocalTZA date _ _ _ Hy Hv (eq_sym Hday)).
    rewrite <- (format_of_calendar_day LocalTZA date' _ _ _ Hy' Hv' (eq_sym Hday')).
    congruence. }
  pose proof (validDate_day_bound _ _ _ Hv) as Hb.
  pose proof (validDate_day_bound _ _ _ Hv') as Hb'.
  destruct Hv as [Hm _], Hv' as [Hm' _].
  apply isoDate_inj in Hf as (Ey & Em & Ed); try lia.
  rewrite <- Hday, <- Hday', Ey, Em, Ed. reflexivity.
Qed.

Lemma due_on_names_the_local_day_witness :
  due_on (payload (fun _ => 7200000) true sampleDraft) =
    due_on (payload (fun _ => 7200000) false
              (mkValues "W2" None "Other" "" "" (Some (mkDate 1714560000000)) []))
  <-> Day (LocalTime (fun _ => 7200000) 1714521600000) =
      Day (LocalTime (fun _ => 7200000) 1714560000000).
Proof.
  apply (due_on_names_the_local_day (fun _ => 7200000) true false sampleDraft
           (mkValues "W2" None "Other" "" "" (Some (mkDate 1714560000000)) [])
           (mkDate 1714521600000) (mkDate 1714560000000));
    try reflexivity; vm_compute; split; discriminate.
Defined.

(** ** The custom fields that the form offers *)

Lemma includes_In (l : list string) (x : string) : Js.includes l x = true <-> In x l.
Proof.
  induction l as [|y l IH]; cbn [Js.includes In]; [split; [discriminate | tauto]|].
  destruct (String.eqb_spec y x) as [->|Hne]; [tauto|].
  rewrite IH. split; [auto | intros [?|?]; [congruence | done]].
Qed.

Lemma flat_defined_settings (l : list Project.t) :
  Js.flat
    (map (fun project =>
            map Setting.custom_field <$> Project.custom_field_settings project)
       (List.filter
          (fun project =>
             match Project.custom_field_settings project with
             | Some settings => (0 <? length settings)%nat
             | None => false
             end) l)) =
  map Some (flat_map (fun project => map Setting.custom_field (settingsOf project)) l).
Proof.
  remember (fun project : Project.t =>
              match Project.custom_field_settings project with
              | Some settings => (0 <? length settings)%nat
              | None => false
              end) as keep eqn:Hkeep.
  assert (Hk : forall q, keep q =
                 match Project.custom_field_settings q with
                 | Some settings => (0 <? length settings)%nat
                 | None => false
                 end) by (intros q; by subst keep).
  clear Hkeep.
  induction l as [|p l IH]; [reflexivity|].
  cbn [List.filter flat_map]. rewrite Hk. unfold settingsOf at 1.
  destruct (Project.custom_field_settings p) as [[|s rest]|] eqn:E.
  - exact IH.
  - change (0 <? length (s :: rest))%nat with true. cbn iota.
    cbn [map]. rewrite E. cbn [fmap option_fmap option_map Js.flat default].
    rewrite IH, map_app. reflexivity.
  - exact IH.
Qed.

Lemma availableCustomFields_chosen (allProjects : option (list Project.t))
    (values : TaskFormValues) :
  availableCustomFields allProjects values =
  (fun projects => map Some (fieldsOfChosen projects values)) <$> allProjects.
Proof.
  unfold availableCustomFields, selectedProjects, fieldsOfChosen.
  destruct allProjects as [projects|]; [|reflexivity].
  cbn [fmap option_fmap option_map]. f_equal.
  apply flat_defined_settings.
Qed.

Lemma In_fieldsOfChosen (projects : list Project.t) (values : TaskFormValues)
    (field : CustomField.t) :
  In field (fieldsOfChosen projects values) <->
  exists project chosen setting,
    In project projects /\
    CreateTask.projects values = Some chosen /\ In (Project.gid project) chosen /\
    Project.custom_field_settings project <> None /\
    In setting (settingsOf project) /\ Setting.custom_field setting = field.
Proof.
  unfold fieldsOfChosen. rewrite in_flat_map. split.
  - intros (project & Hp & Hf). apply List.filter_In in Hp as [Hp Hc].
    apply in_map_iff in Hf as (setting & <- & Hs).
    unfold isChosen in Hc. destruct (CreateTask.projects values) as [chosen|]; [|done].
    apply includes_In in Hc. exists project, chosen, setting.
    repeat split; try done.
    unfold settingsOf in Hs. destruct (Project.custom_field_settings project); done.
  - intros (project & chosen & setting & Hp & Hc & Hg & _ & Hs & <-).
    exists project. split.
    + apply List.filter_In. split; [done|]. unfold isChosen. rewrite Hc.
      by apply includes_In.
    + apply in_map_iff. eauto.
Qed.

(** What the callback computes has fields exactly when some chosen
    project of the loaded ones has a setting. *)
Lemma computed_has_fields_iff (allProjects : option (list Project.t))
    (values : TaskFormValues) :
  hasCustomFields allProjects values = true <->
  exists projects project chosen setting,
    allProjects = Some projects /\ In project projects /\
    CreateTask.projects values = Some chosen /\ In (Project.gid project) chosen /\
    In setting (settingsOf project).
Proof.
  unfold hasCustomFields. rewrite availableCustomFields_chosen.
  destruct allProjects as [projects|]; cbn [fmap option_fmap option_map].
  - rewrite length_map. split.
    + intros Hlen. destruct (fieldsOfChosen projects values) as [|field rest] eqn:E;
        [discriminate|].
      assert (Hin : In field (fieldsOfChosen projects values)) by (rewrite E; by left).
      apply In_fieldsOfChosen in Hin as (project & chosen & setting & H).
      exists projects, project, chosen, setting. tauto.
    + intros (ps & project & chosen & setting & [= <-] & Hp & Hc & Hg & Hs).
      assert (Hin : In (Setting.custom_field setting) (fieldsOfChosen projects values)).
      { apply In_fieldsOfChosen. exists project, chosen, setting.
        repeat split; try done.
        unfold settingsOf in Hs. destruct (Project.custom_field_settings project); done. }
      destruct (fieldsOfChosen projects values); [destruct Hin | reflexivity].
  - split; [discriminate | intros (? & ? & ? & ? & [=] & _)].
Qed.

(** ** The custom-field inputs that the form renders *)

Lemma renderEach_defined (fields : list CustomField.t) :
  renderEach (map Some fields) = Some (map renderCustomField fields).
Proof.
  induction fields as [|field fields IH]; [reflexivity|].
  cbn [map renderEach]. by rewrite IH.
Qed.

Lemma renderCustomField_id (field : CustomField.t) :
  item_id <$> renderCustomField field =
  if hasInput field then Some (inputId (CustomField.gid field)) else None.
Proof.
  unfold renderCustomField, hasInput.
  destruct (String.eqb (CustomField.resource_subtype field) "enum"); [reflexivity|].
  cbn [orb].
  by destruct (String.eqb (CustomField.resource_subtype field) "text"
               || String.eqb (CustomField.resource_subtype field) "number").
Qed.

Lemma rendered_ids_of_fields (fields : list CustomField.t) :
  omap (fmap item_id) (map renderCustomField fields) =
  map (fun field => inputId (CustomField.gid field)) (List.filter hasInput fields).
Proof.
  induction fields as [|field fields IH]; [reflexivity|].
  cbn [map omap list_omap List.filter]. rewrite renderCustomField_id, IH.
  by destruct (hasInput field).
Qed.

Lemma customFieldItems_cases (allProjects : option (list Project.t))
    (values : TaskFormValues) :
  customFieldItems allProjects values =
  match offeredFields allProjects values with
  | [] => RenderedNull
  | fields => RenderedItems (map renderCustomField fields)
  end.
Proof.
  unfold customFieldItems, hasCustomFields, offeredFields.
  rewrite availableCustomFields_chosen.
  destruct allProjects as [projects|]; cbn [fmap option_fmap option_map]; [|reflexivity].
  rewrite length_map, renderEach_defined.
  by destruct (fieldsOfChosen projects values).
Qed.

Lemma custom_field_part_ids (allProjects : option (list Project.t))
    (values : TaskFormValues) :
  renderedIds (customFieldItems allProjects values) =
    map (fun field => inputId (CustomField.gid field))
      (List.filter hasInput (offeredFields allProjects values)) /\
  (forall id, In id (renderedIds (customFieldItems allProjects values)) ->
     Js.startsWith id "field-" = true).
Proof.
  assert (Hids : renderedIds (customFieldItems allProjects values) =
    map (fun field => inputId (CustomField.gid field))
      (List.filter hasInput (offeredFields allProjects values))).
  { rewrite customFieldItems_cases.
    destruct (offeredFields allProjects values) as [|field fields] eqn:E; [done|].
    cbn [renderedIds]. apply rendered_ids_of_fields. }
  split; [exact Hids|]. rewrite Hids. intros id Hin.
  apply in_map_iff in Hin as (field & <- & _). apply startsWith_field. eauto.
Qed.

#[local] Instance inputId_inj : Inj (=) (=) inputId.
Proof. unfold inputId. apply _. Qed.

Lemma NoDup_map_inputId (l : list string) : NoDup (map inputId l) <-> NoDup l.
Proof. change (map inputId l) with (inputId <$> l). apply (NoDup_fmap inputId). Qed.

Lemma wired_not_field (id : string) :
  In id wiredIds -> Js.startsWith id "field-" = false.
Proof.
  unfold wiredIds. cbn [In].
  intros [<-|[<-|[<-|[<-|[<-|[<-|[]]]]]]]; reflexivity.
Qed.

Lemma computed_ids_distinct_iff (allProjects : option (list Project.t))
    (values : TaskFormValues) :
  NoDup (wiredIds ++ renderedIds (customFieldItems allProjects values)) <->
  NoDup (map CustomField.gid (List.filter hasInput (offeredFields allProjects values))).
Proof.
  destruct (custom_field_part_ids allProjects values) as [-> Hfield].
  rewrite NoDup_app. split.
  - intros (_ & _ & Hnd).
    rewrite <- (map_map CustomField.gid inputId) in Hnd.
    exact (proj1 (NoDup_map_inputId _) Hnd).
  - intros Hnd. split; [|split].
    + apply (bool_decide_unpack _). by vm_compute.
    + intros id Hw Hr. apply list_elem_of_In in Hw, Hr.
      apply wired_not_field in Hw. apply in_map_iff in Hr as (field & <- & _).
      assert (Js.startsWith (inputId (CustomField.gid field)) "field-" = true)
        by (apply startsWith_field; eauto).
      congruence.
    + rewrite <- (map_map CustomField.gid inputId).
      exact (proj2 (NoDup_map_inputId _) Hnd).
Qed.

(** A custom field shared by two chosen projects is rendered twice,
    under one id, at a render where the memo holds what it computes from
    these projects. *)
Example shared_field_rendered_twice :
  let priority := CustomField.mk "11" "Priority" "enum" None in
  let both := Some [Project.mk "P1" "One" (Some [Setting.mk priority]);
                    Project.mk "P2" "Two" (Some [Setting.mk priority])] in
  let values := mkValues "W1" (Some ["P1"; "P2"]) "" "" "" None [] in
  renderedIds (customFieldItems both values) = [inputId "11"; inputId "11"].
Proof. reflexivity. Qed.

(** ** From the rendered inputs to the request *)

(** X17: when the submitted inputs are the custom-field inputs that the
    form rendered, no two rendered fields share an identifier and no
    identifier holds a dash, the request's [custom_fields] are exactly
    the non-empty values of these inputs, each under the identifier of
    its custom field. *)
Theorem rendered_inputs_reach_the_request (LocalTZA : Z -> Z) (signature : bool)
    (allProjects : option (list Project.t)) (shown values : TaskFormValues)
    (k : string) (x : FormValue) :
  map fst (inputs values) = renderedIds (customFieldItems allProjects shown) ->
  NoDup (map CustomField.gid (List.filter hasInput (offeredFields allProjects shown))) ->
  (forall field, In field (offeredFields allProjects shown) ->
     ~ hasDash (CustomField.gid field)) ->
  custom_fields (payload LocalTZA signature values) !! k = Some x <->
  exists field s,
    In field (offeredFields allProjects shown) /\ hasInput field = true /\
    CustomField.gid field = k /\
    In (inputId k, s) (inputs values) /\ s <> "" /\ x = VString s.
Proof.
  intros Hids Hnd Hdash.
  destruct (custom_field_part_ids allProjects shown) as [Hr _].
  rewrite Hr in Hids.
  assert (Hfield : forall gid s, In (inputId gid, s) (inputs values) ->
            exists field, In field (offeredFields allProjects shown) /\
                          hasInput field = true /\ CustomField.gid field = gid).
  { intros gid s Hin.
    assert (Hid : In (inputId gid) (map fst (inputs values)))
      by (apply in_map_iff; by exists (inputId gid, s)).
    rewrite Hids in Hid. apply in_map_iff in Hid as (field & Heq & Hf).
    apply List.filter_In in Hf as [Hf Hi]. apply (inj inputId) in Heq. eauto. }
  assert (Hwf : wf values).
  { unfold wf. rewrite Hids, <- (map_map CustomField.gid inputId).
    by apply NoDup_map_inputId. }
  assert (Hnodash : forall gid s, In (inputId gid, s) (inputs values) -> ~ hasDash gid).
  { intros gid s Hin. destruct (Hfield gid s Hin) as (field & Hf & _ & <-). auto. }
  cbn [payload custom_fields].
  rewrite (custom_fields_exact_without_dash values Hwf Hnodash k x). split.
  - intros (s & -> & Hs & Hin). destruct (Hfield k s Hin) as (field & Hf & Hi & Hg).
    exists field, s. done.
  - intros (field & s & _ & _ & _ & Hin & Hs & ->). eauto.
Qed.

Lemma rendered_inputs_reach_the_request_witness :
  custom_fields (payload (fun _ => 0) false sampleInputs) !! "11" = Some (VString "111") <->
  exists field s,
    In field (offeredFields sampleProjects sampleInputs) /\ hasInput field = true /\
    CustomField.gid field = "11" /\
    In (inputId "11", s) (inputs sampleInputs) /\ s <> "" /\ VString "111" = VString s.
Proof.
  apply (rendered_inputs_reach_the_request (fun _ => 0) false sampleProjects
           sampleInputs sampleInputs "11" (VString "111")).
  - reflexivity.
  - apply (bool_decide_unpack _). by vm_compute.
  - intros field [<-|[<-|[]]] [rest Hrest]; vm_compute in Hrest; discriminate.
Defined.

(** X18: the request's [custom_fields] are empty exactly when every
    custom-field input of the form is empty, in particular when the form
    has none. *)
Theorem custom_fields_empty_iff (LocalTZA : Z -> Z) (signature : bool)
    (values : TaskFormValues) :
  custom_fields (payload LocalTZA signature values) = ∅ <->
  forall gid s, In (inputId gid, s) (inputs values) -> s = "".
Proof.
  cbn [payload custom_fields]. rewrite map_empty. split.
  - intros Hnone gid s Hin. destruct (decide (s = "")) as [|Hne]; [done|].
    assert (Hsome : is_Some (customFields values !! beforeSep "-" gid))
      by (apply is_Some_customFields; eauto).
    rewrite Hnone in Hsome. by destruct Hsome.
  - intros Hempty k. apply eq_None_not_Some.
    intros (gid & s & Hin & Hs & _)%is_Some_customFields.
    by apply Hs, (Hempty gid).
Qed.

(** ** The values that the form starts with *)

(** X19: the form starts with the draft's workspace when the draft has
    a non-empty one and with the prop's otherwise, so an empty workspace
    in a draft falls back to the prop and the initial workspace is the
    empty string only when the prop is; the same holds for the assignee;
    name, description, projects and due date come from the draft alone
    and are undefined without a draft; drafts are enabled unless the
    form is opened from the empty view. *)
Theorem initial_values_prefer_the_draft (props : Props) :
  (forall draft, draftValues props = Some draft ->
     initial_workspace (initialValues props) =
       (if decide (CreateTask.workspace draft = "") then props_workspace props
        else Some (CreateTask.workspace draft)) /\
     initial_assignee (initialValues props) =
       (if decide (CreateTask.assignee draft = "") then props_assignee props
        else Some (CreateTask.assignee draft)) /\
     initial_name (initialValues props) = Some (CreateTask.name draft) /\
     initial_description (initialValues props) = Some (description draft) /\
     initial_projects (initialValues props) = CreateTask.projects draft /\
     initial_due_date (initialValues props) = Some (due_date draft)) /\
  (draftValues props = None ->
     initialValues props =
       mkInitial (props_workspace props) None None None (props_assignee props) None) /\
  (initial_workspace (initialValues props) = Some "" -> props_workspace props = Some "") /\
  (initial_assignee (initialValues props) = Some "" -> props_assignee props = Some "") /\
  (enableDrafts props = false <-> fromEmptyView props = Some true).
Proof.
  assert (Hdrafts : enableDrafts props = false <-> fromEmptyView props = Some true).
  { unfold enableDrafts. destruct (fromEmptyView props) as [[|]|]; split; congruence. }
  unfold initialValues, or_else.
  destruct (draftValues props) as [draft|]; cbn.
  - split; [|split; [discriminate|]].
    + intros ? [= <-].
      destruct (CreateTask.workspace draft), (CreateTask.assignee draft); done.
    + destruct (CreateTask.workspace draft), (CreateTask.assignee draft);
        cbn; repeat split; try congruence; apply Hdrafts.
  - split; [discriminate|]. split; [done|]. repeat split; try done; apply Hdrafts.
Qed.

(** ** The choices of the assignee *)

(** X20: the assignee dropdown offers the empty value, titled
    "Unassigned", and then the identifiers of the users in their order,
    whoever the current user is; a user is titled with " (me)" exactly
    when the identifier is the current user's; and when no user has an
    empty identifier, "Unassigned" is the only choice with which the
    request has no [assignee]. *)
Theorem assignee_choices (LocalTZA : Z -> Z) (signature : bool)
    (users : option (list User.t)) (me : option User.t) (values : TaskFormValues) :
  map item_value (assigneeItems users me) = "" :: map User.gid (default [] users) /\
  map item_title (assigneeItems users me) =
    "Unassigned" ::
    map (fun user =>
           if decide (User.gid <$> me = Some (User.gid user))
           then User.name user +:+ " (me)" else User.name user)
        (default [] users) /\
  ((forall user, In user (default [] users) -> User.gid user <> "") ->
   forall item, In item (assigneeItems users me) ->
     Api.assignee (payload LocalTZA signature (withAssignee values (item_value item)))
       = None
     <-> item = mkItem None "Unassigned" "" (Some IconPerson)).
Proof.
  unfold assigneeItems.
  destruct users as [users|]; cbn [default map item_value item_title].
  - split; [|split].
    + f_equal. rewrite map_map. reflexivity.
    + f_equal. rewrite map_map. apply map_ext. intros user. cbn [item_title].
      destruct me as [me|]; cbn.
      * destruct (String.eqb_spec (User.gid user) (User.gid me)) as [->|Hne].
        -- by rewrite decide_True.
        -- rewrite decide_False; [done | congruence].
      * by rewrite decide_False.
    + intros Hgid item [<-|Hin]; [done|].
      apply in_map_iff in Hin as (user & <- & Hu).
      cbn [payload Api.assignee withAssignee CreateTask.assignee item_value].
      pose proof (Hgid user Hu) as Hne. apply truthy_true in Hne. rewrite Hne.
      split; discriminate.
  - split; [done|]. split; [done|]. intros _ item [<-|[]]. done.
Qed.

(** ** The memo over the renders *)

Lemma memoAfter_snoc (history : list Render) (render : Render) :
  memoAfter (history ++ [render]) = Some (memoAt history render).
Proof. unfold memoAfter, memoAt. by rewrite fold_left_app. Qed.

(** The memo always holds what its callback computed at some render, the
    present one or an earlier one, from the projects loaded then. *)
Lemma memo_computed (history : list Render) (now : Render) :
  exists render,
    In render (history ++ [now]) /\
    cell_projects (memoAt history now) = CreateTask.projects (render_values render) /\
    cell_value (memoAt history now) =
      availableCustomFields (render_allProjects render) (render_values render).
Proof.
  revert now. induction history as [|last history IH] using rev_ind; intros now.
  - exists now. split; [by left | split; reflexivity].
  - unfold memoAt at 1 2. rewrite memoAfter_snoc. cbn [customFieldsMemo].
    destruct (sameDependency _ _ _).
    + destruct (IH last) as (render & Hin & Hp & Hv).
      exists render. split; [apply in_or_app; by left | done].
    + exists now. split; [apply in_or_app; right; by left | split; reflexivity].
Qed.

Lemma omap_id_Some {A : Type} (l : list A) : omap id (map Some l) = l.
Proof. induction l as [|x l IH]; [reflexivity|]. cbn. by rewrite IH. Qed.

Lemma definedFields_computed (allProjects : option (list Project.t))
    (values : TaskFormValues) :
  definedFields (availableCustomFields allProjects values) =
  offeredFields allProjects values.
Proof.
  rewrite availableCustomFields_chosen. unfold definedFields, offeredFields.
  destruct allProjects as [projects|]; [|reflexivity].
  cbn [fmap option_fmap option_map default]. apply omap_id_Some.
Qed.

Lemma customFieldPart_computed (allProjects : option (list Project.t))
    (values : TaskFormValues) :
  customFieldPart (availableCustomFields allProjects values) =
  customFieldItems allProjects values.
Proof. reflexivity. Qed.


(** X13: at every render, after any history of renders, the memo holds
    what its callback computed at one of these renders: the custom
    fields of the projects chosen then, project by project in the order
    of the projects loaded at that render, with repetitions; at the
    first render this is the present render. It never holds an undefined
    element. *)
Theorem memo_holds_fields_of_chosen_projects (history : list Render) (now : Render) :
  (exists render,
     In render (history ++ [now]) /\
     cell_projects (memoAt history now) = CreateTask.projects (render_values render) /\
     cell_value (memoAt history now) =
       (fun projects => map Some (fieldsOfChosen projects (render_values render)))
         <$> render_allProjects render) /\
  cell_value (memoAt [] now) =
    (fun projects => map Some (fieldsOfChosen projects (render_values now)))
      <$> render_allProjects now /\
  (forall fields, cell_value (memoAt history now) = Some fields -> ~ In None fields).
Proof.
  destruct (memo_computed history now) as (render & Hin & Hp & Hv).
  rewrite availableCustomFields_chosen in Hv.
  split; [eauto|]. split; [apply availableCustomFields_chosen|].
  intros fields Hf. rewrite Hv in Hf.
  destruct (render_allProjects render) as [projects|]; [|discriminate].
  injection Hf as <-. intros Hnone. apply in_map_iff in Hnone as (? & [=] & _).
Qed.

(** X14: at a render where the memo computes (the first one, or one
    where [values.projects] is not the object it was), [hasCustomFields]
    is true exactly when some chosen project among the loaded ones has
    a custom-field setting; at a render where [values.projects] is the
    same object the memo is kept, whatever has been loaded since: the
    projects that load after they were chosen do not bring their custom
    fields, [hasCustomFields] stays false. *)
Theorem has_custom_fields_iff (kept : MemoCell) (sameObject : bool)
    (allProjects : option (list Project.t)) (values : TaskFormValues) :
  (hasCustomFieldsOf (cell_value (customFieldsMemo None sameObject allProjects values))
     = true <->
   exists projects project chosen setting,
     allProjects = Some projects /\ In project projects /\
     CreateTask.projects values = Some chosen /\ In (Project.gid project) chosen /\
     In setting (settingsOf project)) /\
  (sameDependency (cell_projects kept) (CreateTask.projects values) sameObject = false ->
   hasCustomFieldsOf
     (cell_value (customFieldsMemo (Some kept) sameObject allProjects values)) = true <->
   exists projects project chosen setting,
     allProjects = Some projects /\ In project projects /\
     CreateTask.projects values = Some chosen /\ In (Project.gid project) chosen /\
     In setting (settingsOf project)) /\
  (sameDependency (cell_projects kept) (CreateTask.projects values) sameObject = true ->
   customFieldsMemo (Some kept) sameObject allProjects values = kept) /\
  hasCustomFieldsOf
    (cell_value (memoAt [mkRender sameObject None values]
                   (mkRender true allProjects values))) = false.
Proof.
  split; [|split; [|split]].
  - apply computed_has_fields_iff.
  - intros Hdiff. cbn [customFieldsMemo]. rewrite Hdiff.
    apply computed_has_fields_iff.
  - intros Hsame. cbn [customFieldsMemo]. by rewrite Hsame.
  - unfold memoAt, memoAfter.
    cbn [fold_left customFieldsMemo render_sameObject render_allProjects
         render_values cell_projects].
    assert (Hsame : sameDependency (CreateTask.projects values)
                      (CreateTask.projects values) true = true)
      by (by destruct (CreateTask.projects values)).
    rewrite Hsame. reflexivity.
Qed.

(** The loading order that leaves the form without custom fields: the
    project is chosen (a stored value) before the projects are loaded. *)
Example chosen_before_loaded :
  customFieldPartAt [mkRender false None sampleInputs]
    (mkRender true sampleProjects sampleInputs) = RenderedNull /\
  renderedIds (customFieldPartAt [] (mkRender false sampleProjects sampleInputs)) =
    [inputId "11"; inputId "12"].
Proof. split; reflexivity. Qed.

(** X15: rendering the custom-field part never throws, at any render
    after any history; the part is null exactly when the memo holds no
    field; otherwise it has one element for each field that the memo
    holds, an input with the id "field-" and the field's identifier for
    an enum, a text or a number, and nothing for any other kind of
    field. *)
Theorem custom_field_part_rendered (history : list Render) (now : Render) :
  customFieldPartAt history now <> RenderThrows /\
  (customFieldPartAt history now = RenderedNull
     <-> definedFields (cell_value (memoAt history now)) = []) /\
  (forall items, customFieldPartAt history now = RenderedItems items ->
     length items = length (definedFields (cell_value (memoAt history now)))) /\
  renderedIds (customFieldPartAt history now) =
    map (fun field => inputId (CustomField.gid field))
      (List.filter hasInput (definedFields (cell_value (memoAt history now)))).
Proof.
  destruct (memo_computed history now) as (render & _ & _ & Hv).
  change (customFieldPartAt history now)
    with (customFieldPart (cell_value (memoAt history now))).
  rewrite Hv, definedFields_computed, customFieldPart_computed, customFieldItems_cases.
  destruct (offeredFields _ _) as [|field fields] eqn:E.
  - repeat split; try done.
  - split; [done|]. split; [split; discriminate|]. split.
    + intros items [= <-]. cbn [map length]. by rewrite length_map.
    + cbn [renderedIds]. apply rendered_ids_of_fields.
Qed.

(** X16: at any render, the ids of the form, the six wired items and
    the rendered custom-field inputs, are pairwise distinct exactly when
    no two rendered custom fields have the same identifier; a custom
    field that two chosen projects share gives two inputs with one
    id. *)
Theorem form_ids_distinct_iff (history : list Render) (now : Render) :
  NoDup (wiredIds ++ renderedIds (customFieldPartAt history now)) <->
  NoDup (map CustomField.gid
           (List.filter hasInput (definedFields (cell_value (memoAt history now))))).
Proof.
  destruct (memo_computed history now) as (render & _ & _ & Hv).
  change (customFieldPartAt history now)
    with (customFieldPart (cell_value (memoAt history now))).
  rewrite Hv, definedFields_computed, customFieldPart_computed.
  apply computed_ids_distinct_iff.
Qed.

(** ** The form after a successful submission *)



Section SubmissionReset.

Context {Error : Type}.
Variable getErrorMessage : Error -> string.
Variable LocalTZA : Z -> Z.
Variable signature : bool.
Variable remote : CreateTaskPayload -> Error + Task.

#[local] Abbreviation onSubmit :=
  (onSubmit getErrorMessage LocalTZA signature remote).
#[local] Abbreviation request := (payload LocalTZA signature).


End SubmissionReset.


(** ** A draft that fails both rules *)

(** Every failure is recorded and the first failing item is focused;
    nothing is sent. *)
Example both_rules_fail :
  let after := snd (submit (fun e : string => e) (fun _ => 0) true accepting
                      (mkValues "" None "" "" "" None [])) in
  errors after = [("workspace", "The item is required"); ("name", "The item is required")] /\
  trace after = [Focus "workspace"] /\
  toast after = None.
Proof. repeat split. Qed.

(** A draft that fails one rule: the name is focused. *)
Example name_rule_fails :
  let after := snd (submit (fun e : string => e) (fun _ => 0) true accepting
                      (mkValues "W1" None "" "" "" None [])) in
  errors after = [("name", "The item is required")] /\
  trace after = [Focus "name"].
Proof. repeat split. Qed.
